(** * Turn-taking and termination logic of the simulated patient caller

    A shallow embedding of the conversational core of the repository:

    - [src/llm_client.py]    : [generate_patient_reply]
    - [src/conversation.py]  : [ConversationManager] with [_is_goal_completed]
                                and [generate_reply]
    - [src/phone_system.py]  : [is_closing_utterance], [CallSession] with
                                [should_end_call], [generate_gpt_reply],
                                [generate_simple_reply_fallback] and the body of
                                the [/handle-agent-response] webhook.

    Python [str] values are modelled as [string] (sequences of 8-bit
    characters); [str.lower] and [str.strip] are given for ASCII text:
    [lower] folds [A]..[Z] only and [strip] removes ASCII white space.
    Python [int] counters are [Z].  The speech-to-text confidence, a float in
    the source that is only ever compared with [0.7], is a rational.  Calls
    that leave the process (the chat-completion request, the transcript store)
    are recorded in an event trace, and the completion service is an oracle
    passed in by the caller. *)

From Stdlib Require Import ZArith List Bool String Ascii Lia QArith.
Import ListNotations.

Local Open Scope string_scope.
Local Open Scope Z_scope.

(** ** Python string primitives *)

Module PyStr.

(** [c.lower()] on one character: only [A]..[Z] change. *)
Definition lower_ascii (c : ascii) : ascii :=
  let n := nat_of_ascii c in
  if ((65 <=? n) && (n <=? 90))%nat then ascii_of_nat (n + 32) else c.

(** [s.lower()] *)
Fixpoint lower (s : string) : string :=
  match s with
  | EmptyString => EmptyString
  | String c rest => String (lower_ascii c) (lower rest)
  end.

(** [s.startswith(p)] *)
Fixpoint startswith (p s : string) : bool :=
  match p, s with
  | EmptyString, _ => true
  | String _ _, EmptyString => false
  | String a p', String b s' => Ascii.eqb a b && startswith p' s'
  end.

(** [p in s]: [p] occurs in [s] as a contiguous substring. *)
Fixpoint str_in (p s : string) : bool :=
  startswith p s ||
  match s with
  | EmptyString => false
  | String _ s' => str_in p s'
  end.

(** [any(p in s for p in phrases)] *)
Definition any_in (phrases : list string) (s : string) : bool :=
  existsb (fun p => str_in p s) phrases.

(** [c.isspace()] for the characters [strip] removes: TAB..CR, FS..US, SPACE. *)
Definition is_space (c : ascii) : bool :=
  let n := nat_of_ascii c in
  (((9 <=? n) && (n <=? 13)) || ((28 <=? n) && (n <=? 32)))%nat.

Fixpoint lstrip (s : string) : string :=
  match s with
  | EmptyString => EmptyString
  | String c rest => if is_space c then lstrip rest else s
  end.

Fixpoint rstrip (s : string) : string :=
  match s with
  | EmptyString => EmptyString
  | String c rest =>
      match rstrip rest with
      | EmptyString => if is_space c then EmptyString else String c EmptyString
      | kept => String c kept
      end
  end.

(** [s.strip()] *)
Definition strip (s : string) : string := rstrip (lstrip s).

(** [sep.join(parts)] *)
Fixpoint join (sep : string) (parts : list string) : string :=
  match parts with
  | [] => EmptyString
  | [p] => p
  | p :: rest => p ++ sep ++ join sep rest
  end.

(** Truthiness of a [str]: the empty string is falsy. *)
Definition truthy (s : string) : bool := negb (s =? EmptyString)%string.

(** [len(s)] as a Python integer *)
Definition len (s : string) : Z := Z.of_nat (String.length s).

Definition newline : string := String (ascii_of_nat 10) EmptyString.

End PyStr.

(** ** Results of calls that may raise *)

Inductive Result (A : Type) : Type :=
| Returned (a : A)
| Raised.

Arguments Returned {A} a.
Arguments Raised {A}.

(** ** Scenario descriptors (the dictionaries produced by [src/scenario_loader.py]) *)

Module Scenario.

(** The [patient_context] dictionary; a field is [None] when its key is
    absent. *)
Record PatientContext := mkContext {
  name : option string;
  claimed_name : option string;
  caller_name : option string;
  dob : option string;
  claimed_dob : option string;
  phone : option string;
  goal : option string;
  background : option string;
  behavior : option string
}.

(** A loaded scenario.  The loader always sets ["name"]; ["patient_context"]
    may be missing from a legacy [scenarios.yaml] entry. *)
Record t := mkScenario {
  scenario_name : string;
  description : option string;
  test_type : option string;
  patient_context : option PatientContext
}.

(** [scenario.get("patient_context", {})] *)
Definition empty_context : PatientContext :=
  mkContext None None None None None None None None None.

Definition context_of (sc : t) : PatientContext :=
  match patient_context sc with
  | Some c => c
  | None => empty_context
  end.

(** [a or b] on [dict.get] results: [None] and the empty string are falsy. *)
Definition get_or (a : option string) (b : string) : string :=
  match a with
  | Some s => if PyStr.truthy s then s else b
  | None => b
  end.

End Scenario.

(** ** The chat-completion boundary ([src/llm_client.py]) *)

Module LlmClient.

Inductive Role := system | user | assistant.

(** One [{"role": ..., "content": ...}] entry of the dialogue history. *)
Record Entry := mkEntry { role : Role; content : string }.

(** A message of a completion request.  The system message is kept
    symbolic: it stands for the text [generate_system_prompt] renders from the
    given patient context (a fixed instruction sheet with the goal, claimed
    identity, background and behaviour notes spliced in). *)
Inductive Message :=
| SystemPrompt (context : Scenario.PatientContext)
| Chat (e : Entry).

(** What the completion service can answer: the request raises, or the
    first choice carries a content that may be [None]. *)
Inductive Response :=
| ApiError
| Content (c : option string).

(** The external capability [client.chat.completions.create]. *)
Definition Completion := list Message -> Response.

Definition FALLBACK : string := "I'm sorry, could you repeat that?".

Definition incomplete_phrases : list string := ["i need"; "i would like"].

(** The guard of [generate_patient_reply] on the stripped text:
    [not text or len(text) < 8 or text.lower() in {...}]. *)
Definition rejected (text : string) : bool :=
  negb (PyStr.truthy text)
  || (PyStr.len text <? 8)
  || existsb (String.eqb (PyStr.lower text)) incomplete_phrases.

(** Generation failure in the specification's terms: the request raised,
    or the candidate is missing, empty, shorter than eight characters, one of
    the two truncated fragments, or anything else the guard rejects once
    stripped. *)
Definition generation_failure (answer : Response) : Prop :=
  match answer with
  | ApiError => True
  | Content None => True
  | Content (Some c) =>
      c = EmptyString \/ PyStr.len c < 8 \/ c = "I need" \/ c = "I would like"
      \/ rejected (PyStr.strip c) = true
  end.

Definition generate_patient_reply (complete : Completion) (messages : list Message)
  : Result string :=
  match complete messages with
  | ApiError => Raised
  | Content c =>
      let text := PyStr.strip (match c with Some s => s | None => EmptyString end) in
      if rejected text then Returned FALLBACK else Returned text
  end.

End LlmClient.

(** ** Observable calls out of the core *)

Inductive Event :=
| CompletionRequest (messages : list LlmClient.Message)
| ClosingCheck (text : string)
| TranscriptSaved (status : string) (turns : Z).

(** ** The conversation manager ([src/conversation.py]) *)

Module Conversation.

Import LlmClient.

Record ConversationManager := mkManager {
  scenario : Scenario.t;
  conversation_history : list Entry;
  turn_count : Z
}.

(** [ConversationManager.__init__] *)
Definition init (sc : Scenario.t) : ConversationManager :=
  mkManager sc [] 0.

(** [generate_system_prompt]: indexing [scenario["patient_context"]] and
    [context['goal']] raises [KeyError] when either key is absent; otherwise
    the rendered prompt is returned. *)
Definition generate_system_prompt (cm : ConversationManager) : Result Message :=
  match Scenario.patient_context (scenario cm) with
  | None => Raised
  | Some context =>
      match Scenario.goal context with
      | None => Raised
      | Some _ => Returned (SystemPrompt context)
      end
  end.

(** The [goal_keywords] dictionary, in insertion order. *)
Definition goal_keywords : list (string * list string) :=
  [ ("appointment", ["scheduled"; "appointment is"; "booked"; "see you on"; "confirmation"]);
    ("refill", ["prescription"; "refill"; "pharmacy"; "sent to"; "filled"]);
    ("reschedule", ["rescheduled"; "moved"; "changed"; "new time"]);
    ("cancel", ["cancelled"; "canceled"; "removed from"]) ].

(** The [for goal_type, keywords in goal_keywords.items()] loop with its
    [return True] and [break]; falling out of the loop returns [False]. *)
Fixpoint goal_loop (items : list (string * list string)) (goal text : string) : bool :=
  match items with
  | [] => false
  | (goal_type, keywords) :: rest =>
      if PyStr.str_in goal_type goal then
        if PyStr.any_in keywords text then true else false
      else goal_loop rest goal text
  end.

(** [context.get("goal")], or the empty string when that is falsy,
    lower-cased. *)
Definition goal_of (sc : Scenario.t) : string :=
  PyStr.lower (Scenario.get_or (Scenario.goal (Scenario.context_of sc)) EmptyString).

Definition _is_goal_completed (cm : ConversationManager) (conversation_text : string) : bool :=
  goal_loop goal_keywords (goal_of (scenario cm)) (PyStr.lower conversation_text).

(** [context.get("dob", "02/17/2026")] *)
Definition scenario_dob (context : Scenario.PatientContext) : string :=
  match Scenario.dob context with
  | Some d => d
  | None => "02/17/2026"
  end.

(** [context.get("name") or context.get("caller_name") or "Lucas"] *)
Definition scenario_name (context : Scenario.PatientContext) : string :=
  Scenario.get_or (Scenario.name context)
    (Scenario.get_or (Scenario.caller_name context) "Lucas").

Definition dob_reply (context : Scenario.PatientContext) : string :=
  if (scenario_dob context =? "1970-01-01")%string
  then "January 1st, 1970." else "February 17th, 2026.".

Definition name_reply (context : Scenario.PatientContext) : string :=
  "Yes, this is " ++ scenario_name context ++ ".".

Definition verification_phrases : list string :=
  [ "speaking with"; "date of birth"; "verify your identity";
    "confirm your information"; "your name"; "who is this" ].

(** The verification block of [generate_reply]: [Some r] when it returns
    [r], [None] when control falls through to the next block. *)
Definition verification_reply (context : Scenario.PatientContext) (agent_lower : string)
  : option string :=
  if PyStr.any_in verification_phrases agent_lower then
    if PyStr.str_in "speaking with" agent_lower
       || PyStr.str_in "your name" agent_lower
       || PyStr.str_in "who is this" agent_lower
    then Some (name_reply context)
    else if PyStr.str_in "date of birth" agent_lower || PyStr.str_in "dob" agent_lower
    then Some (dob_reply context)
    else None
  else None.

Definition completion_signals : list string :=
  [ "is there anything else"; "anything else i can help" ].

Definition CLOSING_ACK : string := "No, that's all. Thank you!".

(** [f"{history_str} {agent_text}"] with
    [history_str] the contents of the history entries joined by single
    spaces. *)
Definition full_context (cm : ConversationManager) (agent_text : string) : string :=
  PyStr.join " " (map content (conversation_history cm)) ++ " " ++ agent_text.

(** The completion-signal block: [true] when it returns the closing
    acknowledgment. *)
Definition completion_ack (cm : ConversationManager) (agent_text : string) : bool :=
  if PyStr.any_in completion_signals (PyStr.lower agent_text)
  then _is_goal_completed cm (full_context cm agent_text)
  else false.

Definition LOW_CONFIDENCE_NOTE : string :=
  PyStr.newline ++ "(Note: Agent's speech may have been unclear - respond appropriately)".

(** [confidence < 0.7] *)
Definition low_confidence (confidence : Q) : bool :=
  negb (Qle_bool (7 # 10) confidence).

Definition user_content (agent_text : string) (confidence : Q) : string :=
  let base := "Agent: " ++ agent_text in
  if low_confidence confidence then base ++ LOW_CONFIDENCE_NOTE else base.

(** What a call of [generate_reply] leaves behind. *)
Record Reply := mkReply {
  result : Result string;
  manager : ConversationManager;
  events : list Event
}.

(** The two [append]s and the counter increment after a completed
    generation. *)
Definition record_exchange (cm : ConversationManager) (agent_text patient_reply : string)
  : ConversationManager :=
  mkManager (scenario cm)
    (conversation_history cm
       ++ [mkEntry user ("Agent: " ++ agent_text)]
       ++ [mkEntry assistant patient_reply])
    (turn_count cm + 1).

Definition generate_reply (complete : Completion) (cm : ConversationManager)
    (agent_text : string) (confidence : Q) : Reply :=
  let agent_lower := PyStr.lower agent_text in
  let context := Scenario.context_of (scenario cm) in
  match verification_reply context agent_lower with
  | Some r => mkReply (Returned r) cm []
  | None =>
      if completion_ack cm agent_text then mkReply (Returned CLOSING_ACK) cm []
      else
        (* the message list is built outside the [try] block *)
        match generate_system_prompt cm with
        | Raised => mkReply Raised cm []
        | Returned prompt =>
            let messages :=
              prompt :: map Chat (conversation_history cm)
                ++ [Chat (mkEntry user (user_content agent_text confidence))] in
            match generate_patient_reply complete messages with
            | Returned patient_reply =>
                mkReply (Returned patient_reply)
                        (record_exchange cm agent_text patient_reply)
                        [CompletionRequest messages]
            | Raised =>
                mkReply (Returned FALLBACK) cm [CompletionRequest messages]
            end
        end
  end.

End Conversation.

(** ** The call session and the agent-utterance webhook ([src/phone_system.py]) *)

Module PhoneSystem.

Import Conversation.

Definition CLOSING_PHRASES : list string :=
  [ "have a great day"; "have a good day"; "thanks for calling";
    "thank you for calling"; "goodbye"; "bye for now"; "take care";
    "thanks again"; "thank you again" ].

Definition is_closing_utterance (text : string) : bool :=
  if negb (PyStr.truthy text) then false
  else PyStr.any_in CLOSING_PHRASES (PyStr.lower text).

Inductive Speaker := agent | patient.

(** One transcript dictionary (the wall-clock timestamp is left out). *)
Record Turn := mkTurn {
  speaker : Speaker;
  text : string;
  turn : Z;
  confidence : option Q
}.

Record CallSession := mkSession {
  call_sid : string;
  turn_count : Z;
  transcript : list Turn;
  scenario_name : string;
  goal_achieved : bool;
  conversation_manager : option ConversationManager
}.

(** [CallSession.__init__]; [loaded] is what [get_scenario_by_name] gave,
    [None] when it raised. *)
Definition init (loaded : option Scenario.t) (sid scenario : string) : CallSession :=
  mkSession sid 0 [] scenario false
    (match loaded with
     | Some sc => Some (Conversation.init sc)
     | None => None
     end).

Definition MIN_TURNS_BEFORE_CLOSE : Z := 3.

Definition end_phrases : list string :=
  [ "goodbye"; "have a great day"; "have a good day"; "take care"; "thanks for calling" ].

Definition goal_indicators : list string :=
  [ "appointment is scheduled"; "appointment is confirmed"; "appointment on";
    "see you on"; "we'll send you"; "confirmation"; "all set"; "you're all set" ].

Definition set_goal_achieved (s : CallSession) (b : bool) : CallSession :=
  mkSession (call_sid s) (turn_count s) (transcript s) (scenario_name s) b
    (conversation_manager s).

(** [should_end_call]: the returned session carries the possibly updated
    [goal_achieved] flag. *)
Definition should_end_call (s : CallSession) (agent_text : string) : bool * CallSession :=
  if turn_count s <? MIN_TURNS_BEFORE_CLOSE then (false, s)
  else
    let agent_lower := PyStr.lower agent_text in
    let s1 := if PyStr.any_in goal_indicators agent_lower
              then set_goal_achieved s true else s in
    let has_ending_phrase := PyStr.any_in end_phrases agent_lower in
    if has_ending_phrase && (goal_achieved s1 || (20 <=? turn_count s1)) then (true, s1)
    else if 25 <=? turn_count s1 then (true, s1)
    else (false, s1).

(** The status field computed by [save_transcript]; the write itself goes
    to the transcript store. *)
Definition save_transcript (s : CallSession) : Event :=
  TranscriptSaved
    (if (turn_count s <? 25) && negb (goal_achieved s) then "in_progress" else "completed")
    (turn_count s).

Definition generate_simple_reply_fallback (agent_text : string) : string :=
  let agent_lower := PyStr.lower agent_text in
  if PyStr.str_in "date of birth" agent_lower || PyStr.str_in "birthday" agent_lower
  then "February 17th, 2026"
  else if PyStr.str_in "phone" agent_lower || PyStr.str_in "callback" agent_lower
          || PyStr.str_in "number" agent_lower
  then "Yes, that's correct."
  else if PyStr.str_in "name" agent_lower then "Lucas"
  else "Okay, thank you.".

Definition set_manager (s : CallSession) (cm : ConversationManager) : CallSession :=
  mkSession (call_sid s) (turn_count s) (transcript s) (scenario_name s)
    (goal_achieved s) (Some cm).

(** [generate_gpt_reply] for a session present in [active_calls]: an
    exception escaping [generate_reply] is caught and answered from the rule
    table. *)
Definition generate_gpt_reply (complete : LlmClient.Completion) (s : CallSession)
    (agent_text : string) (conf : Q) : string * CallSession * list Event :=
  match conversation_manager s with
  | Some cm =>
      let r := generate_reply complete cm agent_text conf in
      match result r with
      | Returned reply => (reply, set_manager s (manager r), events r)
      | Raised =>
          (generate_simple_reply_fallback agent_text, set_manager s (manager r), events r)
      end
  | None => (generate_simple_reply_fallback agent_text, s, [])
  end.

(** The TwiML verbs the handler emits. *)
Inductive Verb :=
| Pause (length : Q)
| Say (text : string)
| Hangup
| Gather (timeout speech_timeout : Z).

Definition add_turn (s : CallSession) (t : Turn) : CallSession :=
  mkSession (call_sid s) (turn_count s + 1) (transcript s ++ [t]) (scenario_name s)
    (goal_achieved s) (conversation_manager s).

Record Handled := mkHandled {
  session : CallSession;
  response : list Verb;
  trace : list Event
}.

Definition GOODBYE : string := "Thank you, goodbye.".

(** The body of [handle_agent_response] once the session has been looked
    up in [active_calls].  [parsed] is the outcome of [float(confidence_str)],
    [None] when it raised. *)
Definition handle_agent_response (complete : LlmClient.Completion) (s : CallSession)
    (agent_speech : string) (parsed : option Q) : Handled :=
  let conf := match parsed with Some c => c | None => 0%Q end in
  let s1 := add_turn s (mkTurn agent agent_speech (turn_count s) (Some conf)) in
  let saved1 := [save_transcript s1] in
  (* [turn_count >= MIN and is_closing_utterance(...)]: the right operand
     is only evaluated when the left one holds *)
  let '(closing, checked) :=
    if MIN_TURNS_BEFORE_CLOSE <=? turn_count s1
    then (is_closing_utterance agent_speech, [ClosingCheck agent_speech])
    else (false, []) in
  if closing then mkHandled s1 [] (saved1 ++ checked)
  else
    let '(ending, s2) := should_end_call s1 agent_speech in
    if ending then
      mkHandled s2 [Pause 1; Say GOODBYE; Hangup] (saved1 ++ checked)
    else
      let '(patient_reply, s3, generated) := generate_gpt_reply complete s2 agent_speech conf in
      let twiml :=
        if PyStr.truthy patient_reply
        then [Pause (3 # 2); Say patient_reply; Gather 10 3]
        else [Pause 1; Say GOODBYE; Hangup] in
      let spoken := if PyStr.truthy patient_reply then patient_reply else GOODBYE in
      let s4 := add_turn s3 (mkTurn patient spoken (turn_count s3) None) in
      mkHandled s4 twiml (saved1 ++ checked ++ generated ++ [save_transcript s4]).

(** One inbound agent utterance as the transport delivers it, together
    with the behaviour of the completion service during that request. *)
Record Inbound := mkInbound {
  speech : string;
  stt_confidence : option Q;
  service : LlmClient.Completion
}.

(** A session driven by a sequence of webhook deliveries. *)
Fixpoint run (s : CallSession) (inputs : list Inbound) : CallSession :=
  match inputs with
  | [] => s
  | i :: rest =>
      run (session (handle_agent_response (service i) s (speech i) (stt_confidence i))) rest
  end.

(** The session states of the specification, read off the handler's
    response: the call keeps listening for the agent ([ACTIVE]) exactly when
    the response carries a [Gather]; an empty response (agent sign-off
    detected) or a hang-up is the end of the dialogue ([ENDING]). *)
Inductive Phase := ACTIVE | ENDING.

Definition is_gather (v : Verb) : bool :=
  match v with
  | Gather _ _ => true
  | _ => false
  end.

Definition phase_after (h : Handled) : Phase :=
  if existsb is_gather (response h) then ACTIVE else ENDING.

End PhoneSystem.

(** ** The session registry and the webhooks around it ([src/phone_system.py]) *)

(** The [active_calls] dictionary: call identifier to session. *)
Module Registry.

Definition t := list (string * PhoneSystem.CallSession).

Definition empty : t := [].

(** [active_calls[k]], [None] when the key is absent *)
Fixpoint get (r : t) (k : string) : option PhoneSystem.CallSession :=
  match r with
  | [] => None
  | (k', v) :: rest => if (k' =? k)%string then Some v else get rest k
  end.

(** [k in active_calls] *)
Definition contains (r : t) (k : string) : bool :=
  match get r k with
  | Some _ => true
  | None => false
  end.

(** [active_calls[k] = v] *)
Fixpoint set (r : t) (k : string) (v : PhoneSystem.CallSession) : t :=
  match r with
  | [] => [(k, v)]
  | (k', v') :: rest =>
      if (k' =? k)%string then (k, v) :: rest else (k', v') :: set rest k v
  end.

(** [del active_calls[k]] *)
Fixpoint remove (r : t) (k : string) : t :=
  match r with
  | [] => []
  | (k', v') :: rest =>
      if (k' =? k)%string then remove rest k else (k', v') :: remove rest k
  end.

End Registry.

Module Webhooks.

Import PhoneSystem.

(** [get_scenario_by_name] as the session constructor sees it: [None]
    when it raises. *)
Definition Loader := string -> option Scenario.t.

Definition DEFAULT_SCENARIO : string := "appointment_scheduling".

(** [voice_webhook]: registers a session for an unknown call, then answers
    with the listening TwiML and its no-speech fallback.  [requested] is the
    [scenario] request value, [None] when absent. *)
Definition voice_webhook (load : Loader) (calls : Registry.t) (sid : string)
    (requested : option string) : Registry.t * list Verb :=
  let calls' :=
    if Registry.contains calls sid then calls
    else
      let scenario := match requested with Some n => n | None => DEFAULT_SCENARIO end in
      Registry.set calls sid (PhoneSystem.init (load scenario) sid scenario) in
  (calls', [Gather 20 3; Pause 1; Say "Hello?"; Hangup]).

(** [handle_agent_response] with its registry lookup: an unknown call gets
    a session for the default scenario; the session is then updated in place. *)
Definition handle_agent_response (load : Loader) (complete : LlmClient.Completion)
    (calls : Registry.t) (sid agent_speech : string) (parsed : option Q)
  : Registry.t * Handled :=
  let current :=
    match Registry.get calls sid with
    | Some s => s
    | None => PhoneSystem.init (load DEFAULT_SCENARIO) sid DEFAULT_SCENARIO
    end in
  let h := PhoneSystem.handle_agent_response complete current agent_speech parsed in
  (Registry.set calls sid (session h), h).

(** [generate_gpt_reply] with its registry lookup. *)
Definition generate_gpt_reply (complete : LlmClient.Completion) (calls : Registry.t)
    (sid agent_text : string) (conf : Q) : string * Registry.t * list Event :=
  match Registry.get calls sid with
  | None => ("Okay, thank you.", calls, [])
  | Some s =>
      let '(reply, s', generated) := PhoneSystem.generate_gpt_reply complete s agent_text conf in
      (reply, Registry.set calls sid s', generated)
  end.

(** The final transcript written when a call completes. *)
Record Final := mkFinal {
  final_scenario : string;
  final_transcript : list Turn;
  final_turn_count : Z;
  final_status : string;
  final_duration : Z
}.

(** [call_status].  [duration] is the outcome of the expression
    [int(call_duration) if str(call_duration).isdigit() else 0], which the
    handler evaluates while it builds the final transcript and only for the
    [completed] signal of a registered call: [Raised] when [int] refuses a
    string that [isdigit] accepts.  In that case the exception leaves the
    handler before the transcript is written and before the session is
    deleted.  Otherwise the final transcript is written and the session
    deleted; any other signal leaves the registry alone. *)
Definition call_status (calls : Registry.t) (sid status : string) (duration : Result Z)
  : Result (Registry.t * option Final) :=
  match Registry.get calls sid with
  | Some s =>
      if (status =? "completed")%string then
        match duration with
        | Returned seconds =>
            Returned
              (Registry.remove calls sid,
               Some (mkFinal (scenario_name s) (transcript s) (turn_count s) "completed"
                       seconds))
        | Raised => Raised
        end
      else Returned (calls, None)
  | None => Returned (calls, None)
  end.

(** One event from the transport, addressed to a call. *)
Inductive Signal :=
| Voice (sid : string) (requested : option string)
| AgentSaid (sid : string) (i : Inbound)
| Status (sid status : string) (duration : Result Z).

(** The registry after one event; a webhook that raises leaves it as it
    was. *)
Definition deliver (load : Loader) (calls : Registry.t) (e : Signal) : Registry.t :=
  match e with
  | Voice sid requested => fst (voice_webhook load calls sid requested)
  | AgentSaid sid i =>
      fst (handle_agent_response load (service i) calls sid (speech i) (stt_confidence i))
  | Status sid status duration =>
      match call_status calls sid status duration with
      | Returned out => fst out
      | Raised => calls
      end
  end.

(** The registry after a sequence of transport events. *)
Definition deliver_all (load : Loader) (calls : Registry.t) (events : list Signal)
  : Registry.t :=
  fold_left (deliver load) events calls.

End Webhooks.

(** ** Scenario files ([src/scenario_loader.py]) *)

Module ScenarioLoader.

(** One value of the [response_stages] dictionary: a dictionary with an
    optional trigger and optional examples, or some other YAML value. *)
Inductive Stage :=
| StageDict (trigger : option string) (examples : option (list string))
| StageOther.

(** A [patient_context] as written in a scenario file: the keys the
    conversation manager reads, and the rich keys the loader folds into the
    behaviour text. *)
Record RichContext := mkRich {
  plain : Scenario.PatientContext;
  anti_repetition : option (list string);
  question_priority : option (list string);
  response_stages : option (list (string * Stage));
  tone : option (list string)
}.

(** The top-level dictionary of a scenario file; a field is [None] when
    its key is absent. *)
Record FileData := mkFile {
  file_name : option string;
  file_description : option string;
  file_test_type : option string;
  file_goal : option string;
  file_context : option string;
  system_prompt_addendum : option string;
  file_patient_context : option RichContext
}.

(** [yaml.safe_load(f) or {}] for an empty file *)
Definition empty_file : FileData := mkFile None None None None None None None.

Definition quote : string := String (ascii_of_nat 34) EmptyString.

(** Truthiness of an optional list value. *)
Definition some_items {A : Type} (l : option (list A)) : list A :=
  match l with
  | Some items => items
  | None => []
  end.

(** ["\n".join(f"- {r}" for r in rules)] *)
Definition bullet_list (rules : list string) : string :=
  PyStr.join PyStr.newline (map (fun r => "- " ++ r) rules).

(** The lines one stage contributes. *)
Definition stage_parts (key : string) (stage : Stage) : list string :=
  match stage with
  | StageDict trigger examples =>
      [PyStr.newline ++ key ++ ":";
       "  Trigger: " ++ match trigger with Some t => t | None => EmptyString end]
      ++ match some_items examples with
         | [] => []
         | items =>
             ["  Examples: " ++ PyStr.join " | " (map (fun e => quote ++ e ++ quote) items)]
         end
  | StageOther => []
  end.

(** The [parts] list of [_build_behavior_from_stages]. *)
Definition behavior_parts (pc : RichContext) : list string :=
  (match some_items (anti_repetition pc) with
   | [] => []
   | anti => ["ANTI-REPETITION RULES:" ++ PyStr.newline ++ bullet_list anti]
   end)
  ++ (match some_items (question_priority pc) with
      | [] => []
      | qp => [PyStr.newline ++ "QUESTION-PRIORITY BEHAVIOR:" ++ PyStr.newline ++ bullet_list qp]
      end)
  ++ (match some_items (response_stages pc) with
      | [] => []
      | stages =>
          (PyStr.newline
             ++ "RESPONSE STAGES (match agent's last message and respond accordingly):")
          :: flat_map (fun item => stage_parts (fst item) (snd item)) stages
      end)
  ++ (match some_items (tone pc) with
      | [] => []
      | tones => [PyStr.newline ++ "TONE:" ++ PyStr.newline ++ bullet_list tones]
      end).

Definition _build_behavior_from_stages (pc : RichContext) : string :=
  match behavior_parts pc with
  | [] => EmptyString
  | parts => PyStr.join PyStr.newline parts
  end.

Definition set_behavior (c : Scenario.PatientContext) (b : string) : Scenario.PatientContext :=
  Scenario.mkContext (Scenario.name c) (Scenario.claimed_name c) (Scenario.caller_name c)
    (Scenario.dob c) (Scenario.claimed_dob c) (Scenario.phone c) (Scenario.goal c)
    (Scenario.background c) (Some b).

Definition set_goal (c : Scenario.PatientContext) (g : string) : Scenario.PatientContext :=
  Scenario.mkContext (Scenario.name c) (Scenario.claimed_name c) (Scenario.caller_name c)
    (Scenario.dob c) (Scenario.claimed_dob c) (Scenario.phone c) (Some g)
    (Scenario.background c) (Scenario.behavior c).

(** [pc.get("behavior", "")] *)
Definition behavior_or_empty (c : Scenario.PatientContext) : string :=
  match Scenario.behavior c with
  | Some b => b
  | None => EmptyString
  end.

Definition blank_line : string := PyStr.newline ++ PyStr.newline.

(** The rich branch of [_normalize_scenario_from_file]: what becomes of
    the patient context. *)
Definition normalize_context (data : FileData) (pc : RichContext) : Scenario.PatientContext :=
  let c0 := plain pc in
  let c1 :=
    match response_stages pc, anti_repetition pc with
    | None, None => c0
    | _, _ =>
        set_behavior c0
          (PyStr.strip (behavior_or_empty c0 ++ blank_line ++ _build_behavior_from_stages pc))
    end in
  let c2 :=
    match system_prompt_addendum data with
    | Some addendum =>
        if PyStr.truthy addendum
        then set_behavior c1
               (PyStr.strip (behavior_or_empty c1 ++ blank_line ++ PyStr.strip addendum))
        else c1
    | None => c1
    end in
  match Scenario.goal c2, file_goal data with
  | None, Some g => set_goal c2 g
  | _, _ => c2
  end.

Definition _normalize_scenario_from_file (data : FileData) (name : string) : Scenario.t :=
  match file_patient_context data with
  | Some pc =>
      Scenario.mkScenario
        (match file_name data with Some n => n | None => name end)
        (file_description data) (file_test_type data)
        (Some (normalize_context data pc))
  | None =>
      let goal := match file_goal data with Some g => g | None => "Help the caller." end in
      let context := match file_context data with Some c => c | None => EmptyString end in
      let edge := PyStr.startswith "edge_" name in
      Scenario.mkScenario name
        (Some (match file_description data with Some d => d | None => EmptyString end))
        (Some (if edge then "edge_case" else "standard"))
        (Some (Scenario.mkContext (Some "Lucas") None None (Some "02/17/2026") None
                 (Some EmptyString) (Some goal) (Some context)
                 (if edge then Some context else None)))
  end.

(** [load_scenario]: [file] is the content of [scenarios/NAME.yaml] when
    that path exists, [legacy] the named entries of [scenarios.yaml] when
    that file exists (an entry without a name can never be selected). *)
Definition load_scenario (file : option FileData) (legacy : option (list Scenario.t))
    (scenario_name : string) : Result Scenario.t :=
  match file with
  | Some data => Returned (_normalize_scenario_from_file data scenario_name)
  | None =>
      match legacy with
      | None => Raised
      | Some scenarios =>
          match find (fun s => (Scenario.scenario_name s =? scenario_name)%string) scenarios with
          | Some s => Returned s
          | None => Raised
          end
      end
  end.

(** [get_scenario_by_name]: the same, with the error renamed. *)
Definition get_scenario_by_name (file : option FileData) (legacy : option (list Scenario.t))
    (name : string) : Result Scenario.t :=
  load_scenario file legacy name.

(** The session constructor's [try]/[except] around the loader. *)
Definition loaded (r : Result Scenario.t) : option Scenario.t :=
  match r with
  | Returned sc => Some sc
  | Raised => None
  end.

End ScenarioLoader.

(** ** Which call a transport event belongs to *)

Module Transport.

Import Webhooks.

Definition addressee (e : Signal) : string :=
  match e with
  | Voice sid _ => sid
  | AgentSaid sid _ => sid
  | Status sid _ _ => sid
  end.

(** The events of a sequence that belong to call [sid], in order. *)
Definition addressed_to (sid : string) (events : list Signal) : list Signal :=
  filter (fun e => (addressee e =? sid)%string) events.

End Transport.

(** ** Shapes of transcripts and histories *)

Module Shape.

Import LlmClient PhoneSystem.

(** The [turn] fields count up from [n]. *)
Fixpoint numbered_from (n : Z) (turns : list Turn) : Prop :=
  match turns with
  | [] => True
  | t :: rest => turn t = n /\ numbered_from (n + 1) rest
  end.

(** Every patient turn comes directly after an agent turn. *)
Fixpoint patient_answers (after_agent : bool) (turns : list Turn) : bool :=
  match turns with
  | [] => true
  | t :: rest =>
      match speaker t with
      | agent => patient_answers true rest
      | patient => after_agent && patient_answers false rest
      end
  end.

(** How many turns of a transcript are the patient's. *)
Definition patient_turns (turns : list Turn) : nat :=
  List.length (filter (fun t => match speaker t with patient => true | agent => false end)
                 turns).

Definition is_user (r : Role) : bool :=
  match r with
  | user => true
  | _ => false
  end.

Definition is_assistant (r : Role) : bool :=
  match r with
  | assistant => true
  | _ => false
  end.

(** One recorded exchange: the agent's line under the [user] role with
    its speaker prefix, then a patient line that passes the completion guard. *)
Definition exchange (u a : Entry) : bool :=
  is_user (role u) && PyStr.startswith "Agent: " (content u)
  && is_assistant (role a) && negb (rejected (content a)).

(** A history made of recorded exchanges only. *)
Fixpoint exchanges (history : list Entry) : bool :=
  match history with
  | [] => true
  | u :: a :: rest => exchange u a && exchanges rest
  | _ => false
  end.

(** The confidence the handler passes on: zero when parsing failed. *)
Definition confidence_of (i : Inbound) : Q :=
  match stt_confidence i with
  | Some c => c
  | None => 0%Q
  end.

(** Where a history comes from: every exchange in it pairs the agent line
    of one of the given deliveries with the line [generate_patient_reply]
    returned, under that delivery's service, for the request made of the
    system prompt, the exchanges recorded before it and that agent line. *)
Fixpoint from_service (context : Scenario.PatientContext) (inputs : list Inbound)
    (before history : list Entry) : Prop :=
  match history with
  | [] => True
  | u :: a :: rest =>
      (exists i,
          In i inputs
          /\ u = mkEntry user ("Agent: " ++ speech i)
          /\ role a = assistant
          /\ generate_patient_reply (service i)
               (SystemPrompt context :: map Chat before
                  ++ [Chat (mkEntry user
                              (Conversation.user_content (speech i) (confidence_of i)))])
             = Returned (content a))
      /\ from_service context inputs (before ++ [u; a]) rest
  | _ => False
  end.

End Shape.

(** ** Sample scenarios, sessions and services *)

Module Samples.

Import LlmClient Conversation PhoneSystem.

(** A scenario in the simple file format, as the loader normalises it. *)
Definition context_with (goal dob : string) : Scenario.PatientContext :=
  Scenario.mkContext (Some "Lucas") None None (Some dob) None (Some EmptyString)
    (Some goal) (Some "Established patient.") None.

Definition scenario_with (goal dob : string) : Scenario.t :=
  Scenario.mkScenario "appointment_scheduling" (Some EmptyString) (Some "standard")
    (Some (context_with goal dob)).

Definition scheduling : Scenario.t :=
  scenario_with "Schedule an appointment for next week" "02/17/2026".

Definition cancelling : Scenario.t :=
  scenario_with "Cancel my appointment" "02/17/2026".

Definition born_1985 : Scenario.t :=
  scenario_with "Schedule an appointment for next week" "03/05/1985".

(** A session with [n] turns counted so far. *)
Definition session_at (n : Z) (achieved : bool) : CallSession :=
  mkSession "CA0001" n [] "appointment_scheduling" achieved
    (Some (Conversation.init scheduling)).

(** A completion service that always answers [c], and one that is down. *)
Definition answering (c : string) : Completion := fun _ => Content (Some c).

Definition unavailable : Completion := fun _ => ApiError.

(** Twelve uneventful rounds from a fresh session: twenty-four turns
    counted, no goal indicator heard. *)
Definition small_talk : Inbound :=
  mkInbound "What time works for you?" (Some 1%Q) (answering "Mornings work best for me.").

Definition fresh : CallSession :=
  PhoneSystem.init (Some scheduling) "CA0001" "appointment_scheduling".

Definition after_24_turns : CallSession := run fresh (repeat small_talk 12).

(** The agent confirms the booking without signing off. *)
Definition confirmed : Inbound :=
  mkInbound "You're all set for Monday at nine." (Some 1%Q) (answering "Great, thank you so much.").

(** A manager that has already recorded one generated exchange. *)
Definition after_booking : ConversationManager :=
  mkManager scheduling
    [ mkEntry user "Agent: Your appointment is booked for Monday at 9.";
      mkEntry assistant "Great, thank you very much." ]
    1.

End Samples.

(** ** More sample data: degraded sessions, a loader, transport events *)

Module Fixtures.

Import LlmClient Conversation PhoneSystem Samples.

(** A session whose scenario could not be loaded. *)
Definition degraded : CallSession := PhoneSystem.init None "CA0002" "no_such_scenario".

(** A legacy entry without patient context. *)
Definition bare : Scenario.t := Scenario.mkScenario "legacy_entry" None None None.

Definition bare_session : CallSession :=
  PhoneSystem.init (Some bare) "CA0003" "legacy_entry".

(** A loader that knows one scenario. *)
Definition one_scenario : Webhooks.Loader :=
  fun name => if (name =? "appointment_scheduling")%string then Some scheduling else None.

Definition next_question : Inbound :=
  mkInbound "And which day would you like?" (Some (1 # 2)) (answering "Monday would be great.").

(** Pickup of one call, two agent utterances on it, and an utterance on
    another call in between. *)
Definition traffic : list Webhooks.Signal :=
  [ Webhooks.Voice "CA0001" None;
    Webhooks.AgentSaid "CA0001" small_talk;
    Webhooks.AgentSaid "CA0009" small_talk;
    Webhooks.AgentSaid "CA0001" next_question ].

(** The request the second utterance of a call gives rise to. *)
Definition second_request : list Message :=
  [ SystemPrompt (context_with "Schedule an appointment for next week" "02/17/2026");
    Chat (mkEntry user "Agent: What time works for you?");
    Chat (mkEntry assistant "Mornings work best for me.");
    Chat (mkEntry user
            (user_content "And which day would you like?" (1 # 2))) ].

End Fixtures.

(** * Properties *)

Import PyStr LlmClient Conversation PhoneSystem Samples.

(** ** Substring search and case folding *)

Section Strings.

Lemma any_in_true (phrases : list string) (s : string) :
  any_in phrases s = true <-> exists p, In p phrases /\ str_in p s = true.
Proof.
  unfold any_in. apply existsb_exists.
Qed.

Lemma any_in_member (p : string) (phrases : list string) (s : string) :
  In p phrases -> str_in p s = true -> any_in phrases s = true.
Proof.
  intros Hin Hp. apply any_in_true. exists p. split; assumption.
Qed.

Lemma startswith_lower (p s : string) :
  startswith p s = true -> startswith (lower p) (lower s) = true.
Proof.
  revert s. induction p as [|a p IH]; intros s H.
  - reflexivity.
  - destruct s as [|b s]; simpl in H; [discriminate|].
    apply andb_true_iff in H. destruct H as [Hab Hps].
    apply Ascii.eqb_eq in Hab. subst b. simpl.
    rewrite Ascii.eqb_refl. simpl. apply IH. exact Hps.
Qed.

(** Literal occurrence survives lower-casing of both sides. *)
Lemma str_in_lower (p s : string) :
  str_in p s = true -> str_in (lower p) (lower s) = true.
Proof.
  induction s as [|b s IH]; intros H.
  - destruct p; simpl in H; [reflexivity|discriminate].
  - cbn [str_in] in H. apply orb_true_iff in H. destruct H as [H|H].
    + apply startswith_lower in H. cbn [str_in lower]. cbn [lower] in H.
      rewrite H. reflexivity.
    + cbn [lower str_in]. rewrite (IH H). apply orb_true_r.
Qed.

(** A phrase already in lower case is found whatever the case of the
    text it occurs in. *)
Lemma str_in_any_case (p s : string) :
  lower p = p -> str_in p s = true -> str_in p (lower s) = true.
Proof.
  intros Hp H. rewrite <- Hp. apply str_in_lower. exact H.
Qed.

Lemma str_in_nonempty (p s : string) :
  truthy p = true -> str_in p s = true -> truthy s = true.
Proof.
  intros Hp Hs. destruct s; [|reflexivity].
  destruct p; simpl in *; discriminate.
Qed.

Lemma lower_truthy (s : string) : truthy (lower s) = truthy s.
Proof.
  destruct s; reflexivity.
Qed.

Lemma lstrip_length (s : string) : (String.length (lstrip s) <= String.length s)%nat.
Proof.
  induction s as [|c s IH]; simpl; [lia|].
  destruct (is_space c); simpl; lia.
Qed.

Lemma rstrip_length (s : string) : (String.length (rstrip s) <= String.length s)%nat.
Proof.
  induction s as [|c s IH]; simpl; [lia|].
  destruct (rstrip s) eqn:E; [destruct (is_space c)|]; simpl in *; lia.
Qed.

Lemma strip_len (s : string) : len (strip s) <= len s.
Proof.
  unfold len, strip.
  pose proof (rstrip_length (lstrip s)). pose proof (lstrip_length s). lia.
Qed.

End Strings.

(** ** The should-end evaluation *)

Section ShouldEnd.

Lemma should_end_call_goal (s : CallSession) (agent_text : string) :
  goal_achieved (snd (should_end_call s agent_text)) =
    if turn_count s <? MIN_TURNS_BEFORE_CLOSE then goal_achieved s
    else goal_achieved s || any_in goal_indicators (lower agent_text).
Proof.
  unfold should_end_call.
  destruct (turn_count s <? MIN_TURNS_BEFORE_CLOSE); [reflexivity|].
  destruct (any_in goal_indicators (lower agent_text)); cbn [set_goal_achieved goal_achieved turn_count];
    repeat match goal with |- context [if ?b then _ else _] => destruct b end;
    cbn; rewrite ?orb_true_r, ?orb_false_r; reflexivity.
Qed.

Lemma should_end_call_frame (s : CallSession) (agent_text : string) :
  let s' := snd (should_end_call s agent_text) in
  turn_count s' = turn_count s /\ transcript s' = transcript s
  /\ conversation_manager s' = conversation_manager s
  /\ call_sid s' = call_sid s /\ scenario_name s' = scenario_name s.
Proof.
  unfold should_end_call.
  destruct (turn_count s <? MIN_TURNS_BEFORE_CLOSE); [cbn; auto|].
  destruct (any_in goal_indicators (lower agent_text)); cbn [set_goal_achieved goal_achieved turn_count];
    repeat match goal with |- context [if ?b then _ else _] => destruct b end;
    cbn; auto.
Qed.

(** The decision past the opening turns, in terms of the updated flag. *)
Lemma should_end_call_decision (s : CallSession) (agent_text : string) :
  MIN_TURNS_BEFORE_CLOSE <= turn_count s ->
  let ending := fst (should_end_call s agent_text) in
  let s' := snd (should_end_call s agent_text) in
  goal_achieved s' = goal_achieved s || any_in goal_indicators (lower agent_text)
  /\ (ending = true <->
        (any_in end_phrases (lower agent_text) = true
         /\ (goal_achieved s' = true \/ 20 <= turn_count s))
        \/ 25 <= turn_count s)
  /\ (25 <= turn_count s -> ending = true).
Proof.
  intros Hmin. cbn zeta.
  assert (Hgate : (turn_count s <? MIN_TURNS_BEFORE_CLOSE) = false)
    by (apply Z.ltb_ge; exact Hmin).
  split.
  { rewrite should_end_call_goal, Hgate. reflexivity. }
  unfold should_end_call. rewrite Hgate.
  set (s1 := if any_in goal_indicators (lower agent_text)
             then set_goal_achieved s true else s).
  assert (Htc : turn_count s1 = turn_count s)
    by (subst s1; destruct (any_in goal_indicators (lower agent_text)); reflexivity).
  rewrite Htc.
  destruct (any_in end_phrases (lower agent_text)) eqn:Hend;
    destruct (goal_achieved s1) eqn:Hgoal;
    destruct (20 <=? turn_count s) eqn:H20;
    destruct (25 <=? turn_count s) eqn:H25;
    cbn [andb orb fst snd]; rewrite ?Hgoal;
    try apply Z.leb_le in H20; try apply Z.leb_gt in H20;
    try apply Z.leb_le in H25; try apply Z.leb_gt in H25;
    (split; [split; [intros E; try discriminate E; auto | intros [[E1 [E2|E2]]|E]; try discriminate; try reflexivity; lia] | intros; try reflexivity; lia]).
Qed.

(** C2.  With at least three turns counted, [should_end_call] answers true
    exactly when the utterance carries an end phrase while the goal flag (as
    updated by this very evaluation) is set or twenty turns have passed, or
    when twenty-five turns have passed; from twenty-five turns on it answers
    true whatever the goal flag and the utterance are. *)
Theorem C2_should_end_call_iff (s : CallSession) (agent_text : string) :
  MIN_TURNS_BEFORE_CLOSE <= turn_count s ->
  let ending := fst (should_end_call s agent_text) in
  let s' := snd (should_end_call s agent_text) in
  goal_achieved s' = goal_achieved s || any_in goal_indicators (lower agent_text)
  /\ (ending = true <->
        (any_in end_phrases (lower agent_text) = true
         /\ (goal_achieved s' = true \/ 20 <= turn_count s))
        \/ 25 <= turn_count s)
  /\ (25 <= turn_count s -> ending = true).
Proof.
  exact (should_end_call_decision s agent_text).
Qed.

Lemma C2_should_end_call_iff_witness :
  let s := session_at 5 false in
  let text := "You're all set. Goodbye!" in
  goal_achieved (snd (should_end_call s text)) = true
  /\ (fst (should_end_call s text) = true <->
        (any_in end_phrases (lower text) = true
         /\ (goal_achieved (snd (should_end_call s text)) = true \/ 20 <= turn_count s))
        \/ 25 <= turn_count s)
  /\ (25 <= turn_count s -> fst (should_end_call s text) = true).
Proof.
  apply (C2_should_end_call_iff (session_at 5 false) "You're all set. Goodbye!").
  vm_compute. discriminate.
Defined.

End ShouldEnd.

(** ** Replies are never empty *)

Section Replies.

Variable complete : Completion.

Lemma verification_reply_truthy (context : Scenario.PatientContext) (l r : string) :
  verification_reply context l = Some r -> truthy r = true.
Proof.
  unfold verification_reply.
  destruct (any_in verification_phrases l); [|discriminate].
  destruct (str_in "speaking with" l || str_in "your name" l || str_in "who is this" l).
  - intros E. injection E as <-. reflexivity.
  - destruct (str_in "date of birth" l || str_in "dob" l); [|discriminate].
    intros E. injection E as <-. unfold dob_reply.
    destruct (scenario_dob context =? "1970-01-01")%string; reflexivity.
Qed.

Lemma generate_patient_reply_truthy (messages : list Message) (r : string) :
  generate_patient_reply complete messages = Returned r -> truthy r = true.
Proof.
  unfold generate_patient_reply.
  destruct (complete messages) as [|c]; [discriminate|].
  destruct (rejected _) eqn:R; intros E; injection E as <-; [reflexivity|].
  unfold rejected in R.
  apply orb_false_iff in R. destruct R as [R _].
  apply orb_false_iff in R. destruct R as [R _].
  apply negb_false_iff in R. exact R.
Qed.

Lemma generate_reply_truthy (cm : ConversationManager) (agent_text : string) (conf : Q) (r : string) :
  result (generate_reply complete cm agent_text conf) = Returned r -> truthy r = true.
Proof.
  unfold generate_reply.
  destruct (verification_reply _ _) eqn:V; cbn [result].
  - intros E. injection E as <-. eapply verification_reply_truthy; eassumption.
  - destruct (completion_ack cm agent_text); cbn [result].
    + intros E. injection E as <-. reflexivity.
    + destruct (generate_system_prompt cm); cbn [result]; [|discriminate].
      destruct (generate_patient_reply _ _) eqn:G; cbn [result];
        intros E; injection E as <-; [|reflexivity].
      eapply generate_patient_reply_truthy; eassumption.
Qed.

Lemma generate_simple_reply_fallback_truthy (agent_text : string) :
  truthy (generate_simple_reply_fallback agent_text) = true.
Proof.
  unfold generate_simple_reply_fallback.
  repeat match goal with |- context [if ?b then _ else _] => destruct b end; reflexivity.
Qed.

Lemma generate_gpt_reply_truthy (s : CallSession) (agent_text : string) (conf : Q) :
  truthy (fst (fst (generate_gpt_reply complete s agent_text conf))) = true.
Proof.
  unfold generate_gpt_reply.
  destruct (conversation_manager s) as [cm|]; cbn [fst].
  - destruct (result (generate_reply complete cm agent_text conf)) eqn:R; cbn [fst].
    + eapply generate_reply_truthy; eassumption.
    + apply generate_simple_reply_fallback_truthy.
  - apply generate_simple_reply_fallback_truthy.
Qed.

Lemma generate_gpt_reply_frame (s : CallSession) (agent_text : string) (conf : Q) :
  let s' := snd (fst (generate_gpt_reply complete s agent_text conf)) in
  turn_count s' = turn_count s /\ goal_achieved s' = goal_achieved s
  /\ transcript s' = transcript s.
Proof.
  unfold generate_gpt_reply.
  destruct (conversation_manager s) as [cm|]; cbn; [|auto].
  destruct (result (generate_reply complete cm agent_text conf)); cbn; auto.
Qed.

End Replies.

(** ** The agent-utterance handler *)

Section Handler.

Variable complete : Completion.

Lemma generate_reply_events (cm : ConversationManager) (agent_text : string) (conf : Q) :
  events (generate_reply complete cm agent_text conf) = []
  \/ exists messages, events (generate_reply complete cm agent_text conf)
                      = [CompletionRequest messages].
Proof.
  unfold generate_reply.
  destruct (verification_reply _ _); cbn [events]; [now left|].
  destruct (completion_ack cm agent_text); cbn [events]; [now left|].
  destruct (generate_system_prompt cm); cbn [events]; [|now left].
  destruct (generate_patient_reply _ _); cbn [events]; right; eexists; reflexivity.
Qed.

Lemma generate_gpt_reply_events (s : CallSession) (agent_text : string) (conf : Q) (e : Event) :
  In e (snd (generate_gpt_reply complete s agent_text conf)) ->
  exists messages, e = CompletionRequest messages.
Proof.
  unfold generate_gpt_reply.
  destruct (conversation_manager s) as [cm|]; [|intros []].
  assert (In e (events (generate_reply complete cm agent_text conf)) ->
          exists messages, e = CompletionRequest messages) as Hev.
  { destruct (generate_reply_events cm agent_text conf) as [-> | [m ->]].
    - intros [].
    - intros [<-|[]]. now exists m. }
  destruct (result (generate_reply complete cm agent_text conf)); cbn [snd]; exact Hev.
Qed.

(** The early exit on an agent sign-off. *)
Lemma handle_closing (s : CallSession) (agent_speech : string) (parsed : option Q) :
  MIN_TURNS_BEFORE_CLOSE <= turn_count s + 1 ->
  is_closing_utterance agent_speech = true ->
  let h := handle_agent_response complete s agent_speech parsed in
  response h = []
  /\ goal_achieved (session h) = goal_achieved s
  /\ turn_count (session h) = turn_count s + 1
  /\ conversation_manager (session h) = conversation_manager s.
Proof.
  intros Hmin Hclose. unfold handle_agent_response.
  cbn [add_turn turn_count].
  apply Z.leb_le in Hmin. rewrite Hmin, Hclose. cbn. auto.
Qed.

(** Below the minimum, the sign-off detector is not called and the
    patient answers. *)
Lemma handle_below_minimum (s : CallSession) (agent_speech : string) (parsed : option Q) :
  turn_count s + 1 < MIN_TURNS_BEFORE_CLOSE ->
  let h := handle_agent_response complete s agent_speech parsed in
  (exists reply, response h = [Pause (3 # 2); Say reply; Gather 10 3])
  /\ (forall t, ~ In (ClosingCheck t) (trace h))
  /\ goal_achieved (session h) = goal_achieved s.
Proof.
  intros Hlt. unfold handle_agent_response.
  set (conf := match parsed with Some c => c | None => 0%Q end).
  set (s1 := add_turn s (mkTurn agent agent_speech (turn_count s) (Some conf))).
  assert (Htc : turn_count s1 = turn_count s + 1) by reflexivity.
  assert (Hleb : (MIN_TURNS_BEFORE_CLOSE <=? turn_count s1) = false)
    by (apply Z.leb_gt; lia).
  assert (Hltb : (turn_count s1 <? MIN_TURNS_BEFORE_CLOSE) = true)
    by (apply Z.ltb_lt; lia).
  rewrite Hleb. unfold should_end_call. rewrite Hltb.
  pose proof (generate_gpt_reply_truthy complete s1 agent_speech conf) as Htruthy.
  pose proof (generate_gpt_reply_frame complete s1 agent_speech conf) as Hframe.
  pose proof (generate_gpt_reply_events s1 agent_speech conf) as Hev.
  destruct (generate_gpt_reply complete s1 agent_speech conf) as [[reply s3] generated].
  cbn [fst snd] in *. rewrite Htruthy. cbn [response trace session].
  split; [eexists; reflexivity|]. split.
  - intros t Hin. cbn [app] in Hin.
    destruct Hin as [Hin|Hin]; [discriminate Hin|].
    apply in_app_or in Hin. destruct Hin as [Hin|Hin].
    + apply Hev in Hin. destruct Hin as [m Hm]. discriminate Hm.
    + destruct Hin as [Hin|[]]. discriminate Hin.
  - cbn. destruct Hframe as (_ & Hg & _). exact Hg.
Qed.

(** The flag survives every delivery. *)
Lemma handle_keeps_goal (s : CallSession) (agent_speech : string) (parsed : option Q) :
  goal_achieved s = true ->
  goal_achieved (session (handle_agent_response complete s agent_speech parsed)) = true.
Proof.
  intros Hg. unfold handle_agent_response.
  set (conf := match parsed with Some c => c | None => 0%Q end).
  set (s1 := add_turn s (mkTurn agent agent_speech (turn_count s) (Some conf))).
  assert (Hg1 : goal_achieved s1 = true) by exact Hg.
  destruct (if MIN_TURNS_BEFORE_CLOSE <=? turn_count s1
            then (is_closing_utterance agent_speech, [ClosingCheck agent_speech])
            else (false, [])) as [closing checked].
  destruct closing; [exact Hg1|].
  pose proof (should_end_call_goal s1 agent_speech) as Hs2.
  destruct (should_end_call s1 agent_speech) as [ending s2]. cbn [snd] in Hs2.
  assert (Hg2 : goal_achieved s2 = true).
  { rewrite Hs2, Hg1. destruct (turn_count s1 <? MIN_TURNS_BEFORE_CLOSE); reflexivity. }
  destruct ending; [exact Hg2|].
  pose proof (generate_gpt_reply_frame complete s2 agent_speech conf) as Hframe.
  destruct (generate_gpt_reply complete s2 agent_speech conf) as [[reply s3] generated].
  cbn [fst snd] in Hframe. destruct Hframe as (_ & Hg3 & _).
  cbn. rewrite Hg3. exact Hg2.
Qed.

End Handler.

(** ** Termination of a session *)

Section Termination.

Lemma goodbye_is_closing (agent_speech : string) :
  str_in "goodbye" (lower agent_speech) = true ->
  is_closing_utterance agent_speech = true.
Proof.
  intros H. unfold is_closing_utterance.
  assert (T : truthy agent_speech = true).
  { rewrite <- lower_truthy. eapply str_in_nonempty; [|exact H]. reflexivity. }
  rewrite T. cbn [negb].
  apply (any_in_member "goodbye"); [cbn; tauto | exact H].
Qed.

Lemma goodbye_is_end_phrase (agent_speech : string) :
  str_in "goodbye" (lower agent_speech) = true ->
  any_in end_phrases (lower agent_speech) = true.
Proof.
  intros H. apply (any_in_member "goodbye"); [cbn; tauto | exact H].
Qed.

Lemma should_end_call_late_goodbye (s : CallSession) (agent_speech : string) :
  20 <= turn_count s ->
  str_in "goodbye" (lower agent_speech) = true ->
  fst (should_end_call s agent_speech) = true.
Proof.
  intros H20 Hbye.
  destruct (should_end_call_decision s agent_speech) as (_ & Hiff & _).
  { unfold MIN_TURNS_BEFORE_CLOSE. lia. }
  apply Hiff. left. split; [apply goodbye_is_end_phrase; exact Hbye | right; exact H20].
Qed.

(** C1 (as amended).  After twenty-four turns an utterance with "goodbye"
    in it ends the dialogue whatever the goal flag is: the sign-off detector
    fires, the handler answers with an empty response and no patient turn,
    the flag is left as it was, and [should_end_call] would answer true as
    well because twenty turns have passed. *)
Theorem C1_goodbye_after_24_turns_ends (complete : Completion) (s : CallSession)
    (agent_speech : string) (parsed : option Q) :
  turn_count s = 24 ->
  str_in "goodbye" (lower agent_speech) = true ->
  let h := handle_agent_response complete s agent_speech parsed in
  phase_after h = ENDING
  /\ response h = []
  /\ turn_count (session h) = 25
  /\ goal_achieved (session h) = goal_achieved s
  /\ fst (should_end_call s agent_speech) = true
  /\ fst (should_end_call (session h) agent_speech) = true.
Proof.
  intros Htc Hbye.
  destruct (handle_closing complete s agent_speech parsed) as (Hr & Hg & Ht & _).
  { rewrite Htc. unfold MIN_TURNS_BEFORE_CLOSE. lia. }
  { apply goodbye_is_closing. exact Hbye. }
  cbn zeta. rewrite Htc in Ht.
  repeat split; try assumption.
  - unfold phase_after. rewrite Hr. reflexivity.
  - apply should_end_call_late_goodbye; [lia | exact Hbye].
  - apply should_end_call_late_goodbye; [lia | exact Hbye].
Qed.

Lemma C1_goodbye_after_24_turns_ends_witness :
  let h := handle_agent_response unavailable after_24_turns "Okay, Goodbye!" (Some 1%Q) in
  phase_after h = ENDING
  /\ response h = []
  /\ turn_count (session h) = 25
  /\ goal_achieved (session h) = goal_achieved after_24_turns
  /\ fst (should_end_call after_24_turns "Okay, Goodbye!") = true
  /\ fst (should_end_call (session h) "Okay, Goodbye!") = true.
Proof.
  apply (C1_goodbye_after_24_turns_ends unavailable after_24_turns "Okay, Goodbye!" (Some 1%Q));
    vm_compute; reflexivity.
Defined.

(** C1 (as stated) fails: the session reached by twelve uneventful rounds
    has counted twenty-four turns with the goal flag unset, and yet "goodbye"
    ends the dialogue instead of leaving the session active. *)
Lemma C1_goodbye_at_24_counterexample :
  ~ (forall complete s agent_speech parsed,
        turn_count s = 24 ->
        goal_achieved s = false ->
        str_in "goodbye" agent_speech = true ->
        phase_after (handle_agent_response complete s agent_speech parsed) = ACTIVE).
Proof.
  intros Hclaim.
  specialize (Hclaim (answering "I still need to book.") after_24_turns "goodbye" (Some 1%Q)).
  assert (Hphase : phase_after
            (handle_agent_response (answering "I still need to book.") after_24_turns
               "goodbye" (Some 1%Q)) = ENDING) by (vm_compute; reflexivity).
  rewrite Hphase in Hclaim.
  discriminate Hclaim; vm_compute; reflexivity.
Qed.

(** C3.  While fewer than three turns have been counted, [should_end_call]
    answers false and changes nothing, whatever the utterance says; and the
    handler, on the delivery that brings the count to such a value, never
    calls the sign-off detector and lets the patient answer and keep
    listening. *)
Theorem C3_no_termination_before_min_turns (s : CallSession) (agent_text : string) :
  turn_count s < MIN_TURNS_BEFORE_CLOSE ->
  should_end_call s agent_text = (false, s)
  /\ forall (complete : Completion) (s0 : CallSession) (parsed : option Q),
       turn_count s0 + 1 = turn_count s ->
       let h := handle_agent_response complete s0 agent_text parsed in
       phase_after h = ACTIVE
       /\ (forall t, ~ In (ClosingCheck t) (trace h))
       /\ goal_achieved (session h) = goal_achieved s0.
Proof.
  intros Hlt. split.
  - unfold should_end_call. apply Z.ltb_lt in Hlt. rewrite Hlt. reflexivity.
  - intros complete s0 parsed Hprev.
    destruct (handle_below_minimum complete s0 agent_text parsed) as ([reply Hr] & Hc & Hg).
    { lia. }
    cbn zeta. repeat split; try assumption.
    unfold phase_after. rewrite Hr. reflexivity.
Qed.

Lemma C3_no_termination_before_min_turns_witness :
  should_end_call (session_at 2 true) "Thanks for calling, goodbye." = (false, session_at 2 true)
  /\ phase_after (handle_agent_response unavailable (session_at 1 true)
                    "Thanks for calling, goodbye." None) = ACTIVE.
Proof.
  destruct (C3_no_termination_before_min_turns (session_at 2 true) "Thanks for calling, goodbye.")
    as [Hend Hhandle].
  { vm_compute. reflexivity. }
  split; [exact Hend|].
  destruct (Hhandle unavailable (session_at 1 true) None) as [Hphase _].
  { vm_compute. reflexivity. }
  exact Hphase.
Defined.

Lemma run_keeps_goal (inputs : list Inbound) (s : CallSession) :
  goal_achieved s = true -> goal_achieved (run s inputs) = true.
Proof.
  revert s. induction inputs as [|i rest IH]; intros s Hg; cbn [run].
  - exact Hg.
  - apply IH. apply handle_keeps_goal. exact Hg.
Qed.

Lemma run_app (before after : list Inbound) (s : CallSession) :
  run s (before ++ after) = run (run s before) after.
Proof.
  revert s. induction before as [|i rest IH]; intros s; cbn [run app].
  - reflexivity.
  - apply IH.
Qed.

(** C4.  A new session starts with the goal flag unset, and once the flag
    is set after some deliveries it is still set after any further ones; a
    direct call of [should_end_call] does not clear it either. *)
Theorem C4_goal_achieved_monotonic (loaded : option Scenario.t) (sid scenario : string)
    (before after : list Inbound) :
  let s0 := PhoneSystem.init loaded sid scenario in
  goal_achieved s0 = false
  /\ (goal_achieved (run s0 before) = true ->
      goal_achieved (run s0 (before ++ after)) = true
      /\ forall agent_text,
           goal_achieved (snd (should_end_call (run s0 (before ++ after)) agent_text)) = true).
Proof.
  cbn zeta. split; [reflexivity|].
  intros Hset.
  assert (Hlater : goal_achieved (run (PhoneSystem.init loaded sid scenario) (before ++ after)) = true).
  { rewrite run_app. apply run_keeps_goal. exact Hset. }
  split; [exact Hlater|].
  intros agent_text. rewrite should_end_call_goal, Hlater.
  destruct (_ <? _); reflexivity.
Qed.

Lemma C4_goal_achieved_monotonic_witness :
  goal_achieved (PhoneSystem.init (Some scheduling) "CA0001" "appointment_scheduling") = false
  /\ goal_achieved (run (PhoneSystem.init (Some scheduling) "CA0001" "appointment_scheduling")
                      ([small_talk; confirmed] ++ [small_talk; small_talk])) = true.
Proof.
  pose proof (C4_goal_achieved_monotonic (Some scheduling) "CA0001" "appointment_scheduling"
              [small_talk; confirmed] [small_talk; small_talk]) as H.
  cbv zeta in H. destruct H as [Hstart Hlater].
  split; [exact Hstart|].
  assert (Hset : goal_achieved
            (run (PhoneSystem.init (Some scheduling) "CA0001" "appointment_scheduling")
               [small_talk; confirmed]) = true) by (vm_compute; reflexivity).
  destruct (Hlater Hset) as [Hkept _]. exact Hkept.
Defined.

End Termination.

(** ** The goal evaluator *)

Section GoalEvaluator.

(** The loop consults the first category whose keyword occurs in the goal,
    and no other. *)
Lemma goal_loop_find (items : list (string * list string)) (goal text : string) :
  goal_loop items goal text =
    match find (fun item => str_in (fst item) goal) items with
    | Some (_, keywords) => any_in keywords text
    | None => false
    end.
Proof.
  induction items as [|[goal_type keywords] rest IH]; cbn [goal_loop find fst].
  - reflexivity.
  - destruct (str_in goal_type goal).
    + destruct (any_in keywords text); reflexivity.
    + exact IH.
Qed.

Lemma goal_loop_first (pre post : list (string * list string)) (cat : string)
    (kws : list string) (goal text : string) :
  (forall item, In item pre -> str_in (fst item) goal = false) ->
  str_in cat goal = true ->
  goal_loop (pre ++ (cat, kws) :: post) goal text = any_in kws text.
Proof.
  intros Hpre Hcat. induction pre as [|[g k] pre IH]; cbn [app goal_loop].
  - rewrite Hcat. destruct (any_in kws text); reflexivity.
  - pose proof (Hpre (g, k) (or_introl eq_refl)) as Hg. cbn [fst] in Hg.
    rewrite Hg. apply IH.
    intros item Hin. apply Hpre. right. exact Hin.
Qed.

(** C8 (as amended).  The evaluator answers true exactly when the first
    category, in the order appointment, refill, reschedule, cancel, whose
    keyword occurs in the lower-cased goal has one of its completion
    indicators in the lower-cased conversation text; when the goal names no
    category it answers false. *)
Theorem C8_goal_completed_iff_first_category (cm : ConversationManager) (text : string) :
  let goal := goal_of (scenario cm) in
  (_is_goal_completed cm text = true <->
     exists cat kws,
       find (fun item => str_in (fst item) goal) goal_keywords = Some (cat, kws)
       /\ any_in kws (lower text) = true)
  /\ ((forall cat kws, In (cat, kws) goal_keywords -> str_in cat goal = false) ->
      _is_goal_completed cm text = false).
Proof.
  cbn zeta. unfold _is_goal_completed. rewrite goal_loop_find. split.
  - destruct (find _ goal_keywords) as [[cat kws]|].
    + split.
      * intros H. exists cat, kws. split; [reflexivity | exact H].
      * intros (cat' & kws' & E & H). injection E as <- <-. exact H.
    + split; [discriminate|]. intros (cat' & kws' & E & _). discriminate E.
  - intros Hnone.
    destruct (find _ goal_keywords) as [[cat kws]|] eqn:F; [|reflexivity].
    apply find_some in F. destruct F as [Hin Hcat]. cbn [fst] in Hcat.
    rewrite (Hnone cat kws Hin) in Hcat. discriminate Hcat.
Qed.

Lemma C8_goal_completed_iff_first_category_witness :
  _is_goal_completed (Conversation.init (scenario_with "Say hello to the front desk" "02/17/2026"))
    "Your appointment is booked and the refill was sent to the pharmacy." = false.
Proof.
  apply (C8_goal_completed_iff_first_category
           (Conversation.init (scenario_with "Say hello to the front desk" "02/17/2026"))).
  intros cat kws Hin. cbn in Hin.
  repeat (destruct Hin as [Hin|Hin]; [injection Hin as <- <-; vm_compute; reflexivity|]).
  destruct Hin.
Defined.

(** C8 (as stated) fails: a goal that names both "cancel" and
    "appointment" is judged by the appointment indicators alone, so a
    cancellation confirmed in the conversation is not recognised. *)
Lemma C8_any_category_counterexample :
  ~ (forall cm text,
        _is_goal_completed cm text = true <->
        exists cat kws,
          In (cat, kws) goal_keywords
          /\ str_in cat (goal_of (scenario cm)) = true
          /\ any_in kws (lower text) = true).
Proof.
  intros Hclaim.
  destruct (Hclaim (Conversation.init cancelling) "Your visit has been cancelled.") as [_ Hback].
  assert (Hcode : _is_goal_completed (Conversation.init cancelling)
                    "Your visit has been cancelled." = false) by (vm_compute; reflexivity).
  rewrite Hcode in Hback. discriminate Hback.
  exists "cancel", ["cancelled"; "canceled"; "removed from"].
  split; [|split].
  - right. right. right. left. reflexivity.
  - vm_compute. reflexivity.
  - vm_compute. reflexivity.
Qed.

(** C10.  Whatever follows the first category whose keyword occurs in the
    goal plays no part in the answer, which is whether that category's
    indicators occur in the text; and there is a goal naming two categories
    for which the evaluator answers false although an indicator of the later
    one is present. *)
Theorem C10_only_first_category_consulted :
  (forall (pre post : list (string * list string)) cat kws cm text,
      goal_keywords = (pre ++ (cat, kws) :: post)%list ->
      (forall item, In item pre -> str_in (fst item) (goal_of (scenario cm)) = false) ->
      str_in cat (goal_of (scenario cm)) = true ->
      _is_goal_completed cm text = any_in kws (lower text)
      /\ forall post',
           goal_loop (pre ++ (cat, kws) :: post')%list (goal_of (scenario cm)) (lower text)
           = _is_goal_completed cm text)
  /\ exists cm text cat kws,
       In (cat, kws) goal_keywords
       /\ str_in cat (goal_of (scenario cm)) = true
       /\ any_in kws (lower text) = true
       /\ _is_goal_completed cm text = false.
Proof.
  split.
  - intros pre post cat kws cm text Htable Hpre Hcat.
    unfold _is_goal_completed. rewrite Htable.
    rewrite (goal_loop_first pre post cat kws _ _ Hpre Hcat). split; [reflexivity|].
    intros post'. apply goal_loop_first; assumption.
  - exists (Conversation.init cancelling), "Your visit has been cancelled.",
      "cancel", ["cancelled"; "canceled"; "removed from"].
    split; [|split; [|split]].
    + right. right. right. left. reflexivity.
    + vm_compute. reflexivity.
    + vm_compute. reflexivity.
    + vm_compute. reflexivity.
Qed.

Lemma C10_only_first_category_consulted_witness :
  _is_goal_completed (Conversation.init cancelling) "Your visit has been cancelled."
  = any_in ["scheduled"; "appointment is"; "booked"; "see you on"; "confirmation"]
      (lower "Your visit has been cancelled.").
Proof.
  destruct C10_only_first_category_consulted as [Hfirst _].
  destruct (Hfirst [] (tl goal_keywords) "appointment"
              ["scheduled"; "appointment is"; "booked"; "see you on"; "confirmation"]
              (Conversation.init cancelling)
              "Your visit has been cancelled.") as [Heq _].
  - reflexivity.
  - intros item [].
  - vm_compute. reflexivity.
  - exact Heq.
Defined.

End GoalEvaluator.

(** ** The reply generator *)

Section ReplyGenerator.

Variable complete : Completion.

(** The verification block answers as soon as a name trigger or the
    phrase "date of birth" occurs, and also when "dob" occurs next to any
    other trigger. *)
Lemma verification_reply_asked (context : Scenario.PatientContext) (l : string) :
  let name_asked :=
    str_in "speaking with" l || str_in "your name" l || str_in "who is this" l in
  name_asked || str_in "date of birth" l
  || (any_in verification_phrases l && str_in "dob" l) = true ->
  verification_reply context l
  = Some (if name_asked then name_reply context else dob_reply context).
Proof.
  cbn zeta. unfold verification_reply, any_in, verification_phrases. cbn [existsb].
  destruct (str_in "speaking with" l), (str_in "your name" l),
    (str_in "who is this" l), (str_in "date of birth" l),
    (str_in "verify your identity" l), (str_in "confirm your information" l),
    (str_in "dob" l); cbn; intros H; try reflexivity; discriminate H.
Qed.


Lemma generate_reply_verified (cm : ConversationManager) (agent_text : string) (conf : Q)
    (r : string) :
  verification_reply (Scenario.context_of (scenario cm)) (lower agent_text) = Some r ->
  generate_reply complete cm agent_text conf = mkReply (Returned r) cm [].
Proof.
  intros V. unfold generate_reply. rewrite V. reflexivity.
Qed.

Lemma generate_reply_acknowledged (cm : ConversationManager) (agent_text : string) (conf : Q) :
  verification_reply (Scenario.context_of (scenario cm)) (lower agent_text) = None ->
  completion_ack cm agent_text = true ->
  generate_reply complete cm agent_text conf = mkReply (Returned CLOSING_ACK) cm [].
Proof.
  intros V A. unfold generate_reply. rewrite V, A. reflexivity.
Qed.

(** What happens once the completion service has been asked. *)
Lemma generate_reply_requested (cm : ConversationManager) (agent_text : string) (conf : Q)
    (messages : list Message) :
  In (CompletionRequest messages) (events (generate_reply complete cm agent_text conf)) ->
  events (generate_reply complete cm agent_text conf) = [CompletionRequest messages]
  /\ match generate_patient_reply complete messages with
     | Returned patient_reply =>
         result (generate_reply complete cm agent_text conf) = Returned patient_reply
         /\ manager (generate_reply complete cm agent_text conf)
            = record_exchange cm agent_text patient_reply
     | Raised =>
         result (generate_reply complete cm agent_text conf) = Returned FALLBACK
         /\ manager (generate_reply complete cm agent_text conf) = cm
     end.
Proof.
  unfold generate_reply.
  destruct (verification_reply _ _); cbn [events]; [intros []|].
  destruct (completion_ack cm agent_text); cbn [events]; [intros []|].
  destruct (generate_system_prompt cm) as [prompt|]; cbn [events]; [|intros []].
  set (sent := prompt :: _).
  destruct (generate_patient_reply complete sent) eqn:G; cbn [events result manager];
    (intros [E|[]]; injection E as <-; rewrite G; auto).
Qed.

(** Without a request, nothing is recorded. *)
Lemma generate_reply_silent (cm : ConversationManager) (agent_text : string) (conf : Q) :
  events (generate_reply complete cm agent_text conf) = [] ->
  manager (generate_reply complete cm agent_text conf) = cm.
Proof.
  unfold generate_reply.
  destruct (verification_reply _ _); cbn [events manager]; [reflexivity|].
  destruct (completion_ack cm agent_text); cbn [events manager]; [reflexivity|].
  destruct (generate_system_prompt cm) as [prompt|]; cbn [events manager]; [|reflexivity].
  destruct (generate_patient_reply _ _); cbn [events manager]; discriminate.
Qed.

Lemma generation_failure_rejected (answer : Response) :
  generation_failure answer ->
  forall messages, complete messages = answer ->
  generate_patient_reply complete messages = Raised
  \/ generate_patient_reply complete messages = Returned FALLBACK.
Proof.
  intros Hfail messages Hanswer. unfold generate_patient_reply. rewrite Hanswer.
  destruct answer as [|[c|]]; [left; reflexivity | | right; reflexivity].
  right. cbn in Hfail.
  assert (R : rejected (strip c) = true).
  { destruct Hfail as [->|[Hshort|[->|[->|R]]]]; try reflexivity; try exact R.
    unfold rejected. pose proof (strip_len c) as Hlen.
    assert (Hltb : (len (strip c) <? 8) = true) by (apply Z.ltb_lt; lia).
    rewrite Hltb. rewrite orb_true_r. reflexivity. }
  rewrite R. reflexivity.
Qed.

(** A completion request in the handler's trace comes from the reply
    generator, whose answer is then spoken before listening again. *)
Lemma handle_requested (s : CallSession) (agent_speech : string) (parsed : option Q)
    (messages : list Message) :
  let conf := match parsed with Some c => c | None => 0%Q end in
  let h := handle_agent_response complete s agent_speech parsed in
  In (CompletionRequest messages) (trace h) ->
  exists cm reply,
    conversation_manager s = Some cm
    /\ In (CompletionRequest messages) (events (generate_reply complete cm agent_speech conf))
    /\ result (generate_reply complete cm agent_speech conf) = Returned reply
    /\ response h = [Pause (3 # 2); Say reply; Gather 10 3].
Proof.
  cbn zeta. unfold handle_agent_response.
  set (conf := match parsed with Some c => c | None => 0%Q end).
  set (s1 := add_turn s (mkTurn agent agent_speech (PhoneSystem.turn_count s) (Some conf))).
  assert (Hsilent : forall checked,
             (checked = [] \/ checked = [ClosingCheck agent_speech]) ->
             ~ In (CompletionRequest messages) ([save_transcript s1] ++ checked)).
  { intros checked [-> | ->] Hin; cbn in Hin;
      repeat (destruct Hin as [Hin|Hin]; [discriminate Hin|]); exact Hin. }
  assert (Hchecked : forall b : bool,
             snd (if b then (is_closing_utterance agent_speech, [ClosingCheck agent_speech])
                  else (false, [])) = []
             \/ snd (if b then (is_closing_utterance agent_speech, [ClosingCheck agent_speech])
                     else (false, [])) = [ClosingCheck agent_speech]).
  { intros []; cbn; auto. }
  specialize (Hchecked (MIN_TURNS_BEFORE_CLOSE <=? PhoneSystem.turn_count s1)).
  destruct (if MIN_TURNS_BEFORE_CLOSE <=? PhoneSystem.turn_count s1
            then (is_closing_utterance agent_speech, [ClosingCheck agent_speech])
            else (false, [])) as [closing checked].
  cbn [snd] in Hchecked.
  destruct closing; cbn [trace]; [intros Hin; destruct (Hsilent checked Hchecked Hin)|].
  pose proof (should_end_call_frame s1 agent_speech) as Hframe.
  destruct (should_end_call s1 agent_speech) as [ending s2]. cbn [snd] in Hframe.
  destruct Hframe as (_ & _ & Hcm & _).
  destruct ending; cbn [trace]; [intros Hin; destruct (Hsilent checked Hchecked Hin)|].
  unfold generate_gpt_reply. rewrite Hcm. cbn [conversation_manager s1 add_turn].
  destruct (conversation_manager s) as [cm|].
  - pose proof (generate_reply_truthy complete cm agent_speech conf) as Htruthy.
    destruct (result (generate_reply complete cm agent_speech conf)) as [reply|] eqn:R.
    + rewrite (Htruthy reply eq_refl). cbn [trace response].
      intros Hin. exists cm, reply.
      split; [reflexivity|]. split; [|split; [exact R | reflexivity]].
      rewrite app_assoc in Hin. apply in_app_or in Hin. destruct Hin as [Hin|Hin].
      * destruct (Hsilent checked Hchecked Hin).
      * apply in_app_or in Hin. destruct Hin as [Hin|[Hin|[]]]; [exact Hin | discriminate Hin].
    + cbn [trace]. intros Hin.
      rewrite app_assoc in Hin. apply in_app_or in Hin. destruct Hin as [Hin|Hin].
      * destruct (Hsilent checked Hchecked Hin).
      * apply in_app_or in Hin. destruct Hin as [Hin|[Hin|[]]]; [|discriminate Hin].
        destruct (generate_reply_requested cm agent_speech conf messages Hin) as [_ Hres].
        destruct (generate_patient_reply complete messages); destruct Hres as [Hres _];
          rewrite R in Hres; discriminate Hres.
  - cbn [trace]. intros Hin.
    rewrite app_assoc in Hin. apply in_app_or in Hin. destruct Hin as [Hin|Hin].
    + destruct (Hsilent checked Hchecked Hin).
    + destruct Hin as [Hin|[]]. discriminate Hin.
Qed.

End ReplyGenerator.

(** ** What the reply generator promises *)

Section ReplyRules.




(** C6 (as amended).  When the utterance contains a closing-offer phrase,
    the verification block has not already answered, and the goal evaluator
    judges the goal completed on the history contents joined by spaces
    followed by the utterance, the reply is exactly "No, that's all. Thank
    you!", the completion service is not asked and the manager is left as it
    was. *)
Theorem C6_closing_offer_acknowledged (complete : Completion) (cm : ConversationManager)
    (agent_text : string) (conf : Q) :
  any_in completion_signals (lower agent_text) = true ->
  _is_goal_completed cm
    (join " " (map content (conversation_history cm)) ++ " " ++ agent_text) = true ->
  verification_reply (Scenario.context_of (scenario cm)) (lower agent_text) = None ->
  generate_reply complete cm agent_text conf
  = mkReply (Returned "No, that's all. Thank you!") cm [].
Proof.
  intros Hsignal Hgoal V.
  apply generate_reply_acknowledged; [exact V|].
  unfold completion_ack. rewrite Hsignal. exact Hgoal.
Qed.

Lemma C6_closing_offer_acknowledged_witness :
  generate_reply unavailable after_booking "Is there anything else I can help with?" 1%Q
  = mkReply (Returned "No, that's all. Thank you!") after_booking [].
Proof.
  refine (C6_closing_offer_acknowledged unavailable after_booking
            "Is there anything else I can help with?" 1%Q _ _ _);
    vm_compute; reflexivity.
Defined.

(** C6 (as stated) fails: a closing offer that also mentions "your name"
    is answered by the verification block, although the goal is judged
    completed. *)
Lemma C6_closing_offer_counterexample :
  ~ (forall complete cm agent_text conf,
        any_in completion_signals (lower agent_text) = true ->
        _is_goal_completed cm (full_context cm agent_text) = true ->
        result (generate_reply complete cm agent_text conf)
        = Returned "No, that's all. Thank you!").
Proof.
  intros Hclaim.
  assert (Hcode : result (generate_reply unavailable after_booking
                     "I have your name on file. Is there anything else I can help with?" 1%Q)
                  = Returned "Yes, this is Lucas.") by (vm_compute; reflexivity).
  rewrite (Hclaim unavailable after_booking
             "I have your name on file. Is there anything else I can help with?" 1%Q)
    in Hcode.
  - discriminate Hcode.
  - vm_compute. reflexivity.
  - vm_compute. reflexivity.
Qed.

End ReplyRules.

(** ** Generation failures and the dialogue history *)

Section GenerationFailure.

(** C7.  Whenever the completion service, asked by [generate_reply],
    raises or hands back a candidate that is missing, empty, shorter than
    eight characters or one of the fragments "I need" and "I would like",
    [generate_reply] returns "I'm sorry, could you repeat that?" rather than
    raising, and the handler speaks that line and goes on listening. *)
Theorem C7_generation_failure_falls_back (complete : Completion) (messages : list Message) :
  generation_failure (complete messages) ->
  (forall cm agent_text conf,
      In (CompletionRequest messages) (events (generate_reply complete cm agent_text conf)) ->
      result (generate_reply complete cm agent_text conf)
      = Returned "I'm sorry, could you repeat that?")
  /\ (forall s agent_speech parsed,
        In (CompletionRequest messages)
           (trace (handle_agent_response complete s agent_speech parsed)) ->
        response (handle_agent_response complete s agent_speech parsed)
        = [Pause (3 # 2); Say "I'm sorry, could you repeat that?"; Gather 10 3]
        /\ phase_after (handle_agent_response complete s agent_speech parsed) = ACTIVE).
Proof.
  intros Hfail.
  assert (Hreply : forall cm agent_text conf,
             In (CompletionRequest messages)
                (events (generate_reply complete cm agent_text conf)) ->
             result (generate_reply complete cm agent_text conf) = Returned FALLBACK).
  { intros cm agent_text conf Hin.
    destruct (generate_reply_requested complete cm agent_text conf messages Hin) as [_ Hres].
    destruct (generation_failure_rejected complete _ Hfail messages eq_refl) as [G|G];
      rewrite G in Hres; destruct Hres as [Hres _]; exact Hres. }
  split; [exact Hreply|].
  intros s agent_speech parsed Hin.
  destruct (handle_requested complete s agent_speech parsed messages Hin)
    as (cm & reply & _ & Hasked & Hres & Hresp).
  rewrite (Hreply cm agent_speech _ Hasked) in Hres. injection Hres as <-.
  split; [exact Hresp|].
  unfold phase_after. rewrite Hresp. reflexivity.
Qed.

Lemma C7_generation_failure_falls_back_witness :
  result (generate_reply (answering "I need") (Conversation.init scheduling)
            "How can I help you today?" 1%Q)
  = Returned "I'm sorry, could you repeat that?"
  /\ phase_after (handle_agent_response (answering "I need") fresh
                    "How can I help you today?" (Some 1%Q)) = ACTIVE.
Proof.
  pose (messages := [SystemPrompt (context_with "Schedule an appointment for next week" "02/17/2026");
                     Chat (mkEntry user "Agent: How can I help you today?")]).
  assert (Hfail : generation_failure (answering "I need" messages)).
  { right. right. left. reflexivity. }
  destruct (C7_generation_failure_falls_back (answering "I need") messages Hfail)
    as [Hreply Hhandle].
  assert (Hin : In (CompletionRequest messages)
                   (events (generate_reply (answering "I need") (Conversation.init scheduling)
                              "How can I help you today?" 1%Q))).
  { left. vm_compute. reflexivity. }
  assert (Htrace : In (CompletionRequest messages)
                      (trace (handle_agent_response (answering "I need") fresh
                                "How can I help you today?" (Some 1%Q)))).
  { vm_compute. right. left. reflexivity. }
  split.
  - exact (Hreply (Conversation.init scheduling) "How can I help you today?" 1%Q Hin).
  - destruct (Hhandle fresh "How can I help you today?" (Some 1%Q) Htrace) as [_ Hphase].
    exact Hphase.
Defined.

(** C9 (as amended).  The verification reply, the closing acknowledgment
    and the fallback after a raised completion error leave the manager's
    history and counter as they were.  Whenever the completion call returns,
    with the candidate or with the clarification put in place of a rejected
    candidate, the history grows by the agent entry followed by the patient
    entry and the counter by one; and the manager changes in no other case. *)
Theorem C9_history_changes_only_after_completion (complete : Completion)
    (cm : ConversationManager) (agent_text : string) (conf : Q) :
  let r := generate_reply complete cm agent_text conf in
  (forall v,
      verification_reply (Scenario.context_of (scenario cm)) (lower agent_text) = Some v ->
      r = mkReply (Returned v) cm [])
  /\ (verification_reply (Scenario.context_of (scenario cm)) (lower agent_text) = None ->
      completion_ack cm agent_text = true ->
      r = mkReply (Returned "No, that's all. Thank you!") cm [])
  /\ (forall messages,
        In (CompletionRequest messages) (events r) ->
        match complete messages with
        | ApiError =>
            result r = Returned "I'm sorry, could you repeat that?" /\ manager r = cm
        | Content _ =>
            exists patient_reply,
              result r = Returned patient_reply
              /\ scenario (manager r) = scenario cm
              /\ conversation_history (manager r)
                 = (conversation_history cm
                      ++ [mkEntry user ("Agent: " ++ agent_text);
                          mkEntry assistant patient_reply])%list
              /\ Conversation.turn_count (manager r) = Conversation.turn_count cm + 1
        end)
  /\ (manager r = cm
      \/ exists messages c,
           events r = [CompletionRequest messages] /\ complete messages = Content c).
Proof.
  cbn zeta. split; [|split; [|split]].
  - intros v V. apply generate_reply_verified. exact V.
  - intros V A. apply generate_reply_acknowledged; assumption.
  - intros messages Hin.
    destruct (generate_reply_requested complete cm agent_text conf messages Hin) as [_ Hres].
    unfold generate_patient_reply in Hres.
    destruct (complete messages) as [|c]; [exact Hres|].
    destruct (rejected _); destruct Hres as [Hres Hm]; eexists;
      (split; [exact Hres|]); rewrite Hm; cbn; auto.
  - destruct (generate_reply_events complete cm agent_text conf) as [Hnone | [messages Hone]].
    + left. apply generate_reply_silent. exact Hnone.
    + assert (Hin : In (CompletionRequest messages)
                       (events (generate_reply complete cm agent_text conf)))
        by (rewrite Hone; left; reflexivity).
      destruct (generate_reply_requested complete cm agent_text conf messages Hin) as [_ Hres].
      unfold generate_patient_reply in Hres.
      destruct (complete messages) as [|c] eqn:A.
      * left. destruct Hres as [_ Hm]. exact Hm.
      * right. exists messages, c. split; [exact Hone | exact A].
Qed.

Lemma C9_history_changes_only_after_completion_witness :
  generate_reply unavailable after_booking "Am I speaking with Lucas?" 1%Q
  = mkReply (Returned "Yes, this is Lucas.") after_booking [].
Proof.
  destruct (C9_history_changes_only_after_completion unavailable after_booking
              "Am I speaking with Lucas?" 1%Q) as [Hverified _].
  cbv zeta in Hverified.
  assert (V : verification_reply (Scenario.context_of (scenario after_booking))
                (lower "Am I speaking with Lucas?") = Some "Yes, this is Lucas.")
    by (vm_compute; reflexivity).
  exact (Hverified "Yes, this is Lucas." V).
Defined.

(** C9 (as stated) fails: a candidate the guard rejects is a generation
    failure answered with the clarification, and that exchange is recorded:
    two entries are appended and the counter moves. *)
Lemma C9_rejected_candidate_counterexample :
  ~ (forall complete cm agent_text conf messages,
        In (CompletionRequest messages) (events (generate_reply complete cm agent_text conf)) ->
        generation_failure (complete messages) ->
        result (generate_reply complete cm agent_text conf)
        = Returned "I'm sorry, could you repeat that?"
        /\ manager (generate_reply complete cm agent_text conf) = cm).
Proof.
  intros Hclaim.
  pose (messages := [SystemPrompt (context_with "Schedule an appointment for next week" "02/17/2026");
                     Chat (mkEntry user "Agent: How can I help you today?")]).
  destruct (Hclaim (answering "ok") (Conversation.init scheduling)
              "How can I help you today?" 1%Q messages) as [_ Hsame].
  - left. vm_compute. reflexivity.
  - right. left. vm_compute. reflexivity.
  - assert (Hcode : conversation_history
                      (manager (generate_reply (answering "ok") (Conversation.init scheduling)
                                  "How can I help you today?" 1%Q))
                    = [mkEntry user "Agent: How can I help you today?";
                       mkEntry assistant "I'm sorry, could you repeat that?"])
      by (vm_compute; reflexivity).
    rewrite Hsame in Hcode. discriminate Hcode.
Qed.

End GenerationFailure.

(** * Further properties of the code *)

(** ** Case folding and stripping *)

Section Folding.

Lemma lower_ascii_idempotent (c : ascii) : lower_ascii (lower_ascii c) = lower_ascii c.
Proof.
  destruct c as [[] [] [] [] [] [] [] []]; reflexivity.
Qed.

Lemma lower_idempotent (s : string) : lower (lower s) = lower s.
Proof.
  induction s as [|c s IH]; cbn [lower]; [reflexivity|].
  rewrite lower_ascii_idempotent, IH. reflexivity.
Qed.

Lemma lstrip_head (s : string) :
  match lstrip s with
  | EmptyString => True
  | String c _ => is_space c = false
  end.
Proof.
  induction s as [|c s IH]; cbn [lstrip]; [exact I|].
  destruct (is_space c) eqn:E; [exact IH | exact E].
Qed.

Lemma rstrip_idempotent (s : string) : rstrip (rstrip s) = rstrip s.
Proof.
  induction s as [|c s IH]; cbn [rstrip]; [reflexivity|].
  destruct (rstrip s) as [|k kept] eqn:E.
  - destruct (is_space c) eqn:Sp; cbn [rstrip]; [reflexivity|]. rewrite Sp. reflexivity.
  - cbn [rstrip]. cbn [rstrip] in IH.
    destruct (match rstrip kept with
              | EmptyString => if is_space k then EmptyString else String k EmptyString
              | String a s0 => String k (String a s0)
              end) eqn:K; [discriminate IH|].
    rewrite IH. reflexivity.
Qed.

Lemma rstrip_keeps_head (c : ascii) (s : string) :
  is_space c = false -> exists rest, rstrip (String c s) = String c rest.
Proof.
  intros Sp. cbn [rstrip]. destruct (rstrip s) as [|k kept].
  - rewrite Sp. eexists; reflexivity.
  - eexists; reflexivity.
Qed.

Lemma lstrip_strip (s : string) : lstrip (strip s) = strip s.
Proof.
  unfold strip. pose proof (lstrip_head s) as H.
  destruct (lstrip s) as [|c t]; [reflexivity|].
  destruct (rstrip_keeps_head c t H) as [rest ->].
  cbn [lstrip]. rewrite H. reflexivity.
Qed.

(** Stripping twice is stripping once. *)
Lemma strip_idempotent (s : string) : strip (strip s) = strip s.
Proof.
  unfold strip at 1. rewrite lstrip_strip. unfold strip. apply rstrip_idempotent.
Qed.

End Folding.

(** ** The completion guard *)

Section Guard.

(** What [generate_patient_reply] can hand back. *)
Lemma generate_patient_reply_guarded (complete : Completion)
    (messages : list Message) :
  match generate_patient_reply complete messages with
  | Raised => complete messages = ApiError
  | Returned r =>
      complete messages <> ApiError
      /\ rejected r = false /\ 8 <= len r /\ strip r = r
  end.
Proof.
  unfold generate_patient_reply.
  destruct (complete messages) as [|c]; [reflexivity|].
  set (text := strip match c with Some s => s | None => EmptyString end).
  destruct (rejected text) eqn:R.
  - split; [discriminate|]. split; [reflexivity|]. split; [vm_compute; discriminate|reflexivity].
  - split; [discriminate|]. split; [exact R|]. split.
    + unfold rejected in R.
      apply orb_false_iff in R. destruct R as [R _].
      apply orb_false_iff in R. destruct R as [_ R].
      apply Z.ltb_ge in R. exact R.
    + subst text. apply strip_idempotent.
Qed.

(** X1.  [generate_patient_reply] raises only when the service does;
    whatever it returns passes its own guard: at least eight characters, not
    one of the truncated fragments, and free of leading and trailing white
    space. *)
Theorem generate_patient_reply_passes_guard (complete : Completion)
    (messages : list Message) :
  match generate_patient_reply complete messages with
  | Raised => complete messages = ApiError
  | Returned r =>
      complete messages <> ApiError
      /\ rejected r = false /\ 8 <= len r /\ strip r = r
  end.
Proof.
  exact (generate_patient_reply_guarded complete messages).
Qed.

(** X2.  The sign-off detector, the should-end evaluation, the goal
    evaluator and the rule table all read the utterance through [lower]:
    they answer the same on a text and on its lower-cased form. *)
Theorem decisions_ignore_case (s : CallSession) (cm : ConversationManager)
    (agent_text : string) :
  is_closing_utterance (lower agent_text) = is_closing_utterance agent_text
  /\ should_end_call s (lower agent_text) = should_end_call s agent_text
  /\ _is_goal_completed cm (lower agent_text) = _is_goal_completed cm agent_text
  /\ generate_simple_reply_fallback (lower agent_text)
     = generate_simple_reply_fallback agent_text.
Proof.
  unfold is_closing_utterance, should_end_call, _is_goal_completed,
    generate_simple_reply_fallback.
  rewrite lower_idempotent, lower_truthy. repeat split; reflexivity.
Qed.

End Guard.

(** ** What the handler answers, and when *)

Section Outcome.

Variable complete : Completion.

(** Every end phrase of [should_end_call] is also a closing phrase. *)
Lemma end_phrase_is_closing (agent_text : string) :
  any_in end_phrases (lower agent_text) = true ->
  is_closing_utterance agent_text = true.
Proof.
  intros H. apply any_in_true in H. destruct H as (p & Hin & Hp).
  unfold is_closing_utterance.
  assert (T : truthy agent_text = true).
  { rewrite <- lower_truthy. eapply str_in_nonempty; [|exact Hp].
    cbn in Hin. repeat (destruct Hin as [<-|Hin]; [reflexivity|]). destruct Hin. }
  rewrite T. cbn [negb].
  apply (any_in_member p); [|exact Hp].
  cbn in Hin |- *. intuition.
Qed.

(** Past the sign-off check, only the turn cap makes [should_end_call]
    answer true. *)
Lemma should_end_call_after_check (s : CallSession) (agent_text : string) :
  (MIN_TURNS_BEFORE_CLOSE <=? PhoneSystem.turn_count s) && is_closing_utterance agent_text
  = false ->
  fst (should_end_call s agent_text) = (25 <=? PhoneSystem.turn_count s).
Proof.
  intros Hcheck. unfold should_end_call.
  destruct (PhoneSystem.turn_count s <? MIN_TURNS_BEFORE_CLOSE) eqn:Hlt.
  - apply Z.ltb_lt in Hlt. unfold MIN_TURNS_BEFORE_CLOSE in Hlt. cbn [fst].
    symmetry. apply Z.leb_gt. lia.
  - apply Z.ltb_ge in Hlt. apply Z.leb_le in Hlt. rewrite Hlt in Hcheck.
    cbn [andb] in Hcheck.
    assert (Hend : any_in end_phrases (lower agent_text) = false).
    { destruct (any_in end_phrases (lower agent_text)) eqn:E; [|reflexivity].
      rewrite (end_phrase_is_closing _ E) in Hcheck. discriminate Hcheck. }
    rewrite Hend. cbn [andb].
    assert (Htc : PhoneSystem.turn_count
                    (if any_in goal_indicators (lower agent_text)
                     then set_goal_achieved s true else s) = PhoneSystem.turn_count s)
      by (destruct (any_in goal_indicators (lower agent_text)); reflexivity).
    rewrite Htc. destruct (25 <=? PhoneSystem.turn_count s); reflexivity.
Qed.

(** The response of the handler, by cases. *)
Lemma handle_response (s : CallSession) (agent_speech : string) (parsed : option Q) :
  let n := PhoneSystem.turn_count s + 1 in
  let h := handle_agent_response complete s agent_speech parsed in
  if (MIN_TURNS_BEFORE_CLOSE <=? n) && is_closing_utterance agent_speech
  then response h = []
       /\ PhoneSystem.turn_count (session h) = n
       /\ goal_achieved (session h) = goal_achieved s
  else if 25 <=? n
  then response h = [Pause 1; Say GOODBYE; Hangup]
       /\ PhoneSystem.turn_count (session h) = n
       /\ goal_achieved (session h)
          = goal_achieved s || any_in goal_indicators (lower agent_speech)
  else (exists reply, truthy reply = true
                      /\ response h = [Pause (3 # 2); Say reply; Gather 10 3])
       /\ PhoneSystem.turn_count (session h) = n + 1
       /\ goal_achieved (session h)
          = goal_achieved s
            || ((MIN_TURNS_BEFORE_CLOSE <=? n) && any_in goal_indicators (lower agent_speech)).
Proof.
  cbn zeta. unfold handle_agent_response.
  set (conf := match parsed with Some c => c | None => 0%Q end).
  set (s1 := add_turn s (mkTurn agent agent_speech (PhoneSystem.turn_count s) (Some conf))).
  change (PhoneSystem.turn_count s + 1) with (PhoneSystem.turn_count s1).
  assert (Hg1 : goal_achieved s1 = goal_achieved s) by reflexivity.
  pose proof (should_end_call_after_check s1 agent_speech) as Hcap.
  pose proof (should_end_call_goal s1 agent_speech) as Hgoal.
  pose proof (should_end_call_frame s1 agent_speech) as Hframe. cbn zeta in Hframe.
  destruct Hframe as (Htc2 & _).
  destruct (MIN_TURNS_BEFORE_CLOSE <=? PhoneSystem.turn_count s1) eqn:Hmin; cbn [andb] in *.
  - destruct (is_closing_utterance agent_speech) eqn:Hclose.
    + cbn. auto.
    + specialize (Hcap eq_refl).
      assert (Hlt : (PhoneSystem.turn_count s1 <? MIN_TURNS_BEFORE_CLOSE) = false)
        by (apply Z.ltb_ge; apply Z.leb_le; exact Hmin).
      rewrite Hlt in Hgoal.
      destruct (should_end_call s1 agent_speech) as [ending s2]. cbn [fst snd] in *.
      subst ending. destruct (25 <=? PhoneSystem.turn_count s1).
      * cbn. rewrite Htc2, Hgoal, Hg1. auto.
      * pose proof (generate_gpt_reply_truthy complete s2 agent_speech conf) as Htruthy.
        pose proof (generate_gpt_reply_frame complete s2 agent_speech conf) as Hf.
        destruct (generate_gpt_reply complete s2 agent_speech conf) as [[reply s3] generated].
        cbn [fst snd] in *. destruct Hf as (Htc3 & Hg3 & _).
        rewrite Htruthy. cbn. rewrite Htc3, Htc2, Hg3, Hgoal, Hg1.
        split; [exists reply; auto | auto].
  - specialize (Hcap eq_refl).
    assert (Hlt : (PhoneSystem.turn_count s1 <? MIN_TURNS_BEFORE_CLOSE) = true)
      by (apply Z.ltb_lt; apply Z.leb_gt; exact Hmin).
    rewrite Hlt in Hgoal.
    assert (H25 : (25 <=? PhoneSystem.turn_count s1) = false).
    { apply Z.leb_gt. apply Z.leb_gt in Hmin. unfold MIN_TURNS_BEFORE_CLOSE in Hmin. lia. }
    rewrite H25 in *.
    destruct (should_end_call s1 agent_speech) as [ending s2]. cbn [fst snd] in *.
    subst ending.
    pose proof (generate_gpt_reply_truthy complete s2 agent_speech conf) as Htruthy.
    pose proof (generate_gpt_reply_frame complete s2 agent_speech conf) as Hf.
    destruct (generate_gpt_reply complete s2 agent_speech conf) as [[reply s3] generated].
    cbn [fst snd] in *. destruct Hf as (Htc3 & Hg3 & _).
    rewrite Htruthy. cbn. rewrite Htc3, Htc2, Hg3, Hgoal, Hg1, orb_false_r.
    split; [exists reply; auto | auto].
Qed.

End Outcome.

(** ** Hang-up, listening and the goal flag *)

Section Decisions.

Variable complete : Completion.

(** X3.  The handler hangs up exactly when the turn count, this utterance
    included, has reached twenty-five and the utterance is not a sign-off.
    The goal flag plays no part: an end phrase is always caught by the
    sign-off check first. *)
Theorem hangup_only_at_turn_cap (s : CallSession) (agent_speech : string)
    (parsed : option Q) :
  In Hangup (response (handle_agent_response complete s agent_speech parsed))
  <-> 25 <= PhoneSystem.turn_count s + 1 /\ is_closing_utterance agent_speech = false.
Proof.
  pose proof (handle_response complete s agent_speech parsed) as H. cbn zeta in H.
  destruct (MIN_TURNS_BEFORE_CLOSE <=? PhoneSystem.turn_count s + 1) eqn:Hmin;
    destruct (is_closing_utterance agent_speech) eqn:Hclose; cbn [andb] in H.
  - destruct H as (-> & _). split; [intros [] | intros [_ E]; discriminate E].
  - destruct (25 <=? PhoneSystem.turn_count s + 1) eqn:H25.
    + destruct H as (-> & _). apply Z.leb_le in H25. split; [auto|].
      intros _. cbn. auto.
    + destruct H as ((reply & _ & ->) & _). apply Z.leb_gt in H25. split.
      * intros [E|[E|[E|[]]]]; discriminate E.
      * intros [Hge _]. lia.
  - apply Z.leb_gt in Hmin. unfold MIN_TURNS_BEFORE_CLOSE in Hmin.
    assert (H25 : (25 <=? PhoneSystem.turn_count s + 1) = false) by (apply Z.leb_gt; lia).
    rewrite H25 in H. destruct H as ((reply & _ & ->) & _). split.
    + intros [E|[E|[E|[]]]]; discriminate E.
    + intros [_ E]. discriminate E.
  - apply Z.leb_gt in Hmin. unfold MIN_TURNS_BEFORE_CLOSE in Hmin.
    assert (H25 : (25 <=? PhoneSystem.turn_count s + 1) = false) by (apply Z.leb_gt; lia).
    rewrite H25 in H. destruct H as ((reply & _ & ->) & _). split.
    + intros [E|[E|[E|[]]]]; discriminate E.
    + intros [Hge _]. lia.
Qed.

(** X4.  The handler speaks a non-empty patient line and goes on
    listening exactly when fewer than twenty-five turns are counted and the
    utterance is not taken for a sign-off; it answers with an empty response
    exactly when a sign-off is heard with three or more turns counted. *)
Theorem listening_and_silence (s : CallSession) (agent_speech : string)
    (parsed : option Q) :
  let n := PhoneSystem.turn_count s + 1 in
  let h := handle_agent_response complete s agent_speech parsed in
  ((exists reply, truthy reply = true
                  /\ response h = [Pause (3 # 2); Say reply; Gather 10 3])
   <-> n < 25 /\ (n < 3 \/ is_closing_utterance agent_speech = false))
  /\ (response h = [] <-> 3 <= n /\ is_closing_utterance agent_speech = true).
Proof.
  pose proof (handle_response complete s agent_speech parsed) as H. cbn zeta in *.
  destruct (MIN_TURNS_BEFORE_CLOSE <=? PhoneSystem.turn_count s + 1) eqn:Hmin;
    [apply Z.leb_le in Hmin | apply Z.leb_gt in Hmin];
    unfold MIN_TURNS_BEFORE_CLOSE in Hmin;
    destruct (is_closing_utterance agent_speech) eqn:Hclose; cbn [andb] in H.
  - destruct H as (-> & _). split; split.
    + intros (reply & _ & E). discriminate E.
    + intros [_ [Hlt|E]]; [lia | discriminate E].
    + auto.
    + reflexivity.
  - destruct (25 <=? PhoneSystem.turn_count s + 1) eqn:H25;
      [apply Z.leb_le in H25 | apply Z.leb_gt in H25].
    + destruct H as (-> & _). split; split.
      * intros (reply & _ & E). discriminate E.
      * intros [Hlt _]. lia.
      * intros E. discriminate E.
      * intros [_ E]. discriminate E.
    + destruct H as ((reply & Ht & ->) & _). split; split.
      * auto.
      * intros _. exists reply. auto.
      * intros E. discriminate E.
      * intros [_ E]. discriminate E.
  - assert (H25 : (25 <=? PhoneSystem.turn_count s + 1) = false) by (apply Z.leb_gt; lia).
    rewrite H25 in H. destruct H as ((reply & Ht & ->) & _). split; split.
    + intros _. split; [lia | left; lia].
    + intros _. exists reply. auto.
    + intros E. discriminate E.
    + intros [Hge _]. lia.
  - assert (H25 : (25 <=? PhoneSystem.turn_count s + 1) = false) by (apply Z.leb_gt; lia).
    rewrite H25 in H. destruct H as ((reply & Ht & ->) & _). split; split.
    + intros _. split; [lia | left; lia].
    + intros _. exists reply. auto.
    + intros E. discriminate E.
    + intros [Hge _]. lia.
Qed.

(** X5.  One delivery sets the goal flag exactly when, with three or more
    turns counted, the utterance carries a goal indicator and is not a
    sign-off; a confirmation spoken together with a sign-off leaves the flag
    as it was. *)
Theorem goal_flag_after_delivery (s : CallSession) (agent_speech : string)
    (parsed : option Q) :
  goal_achieved (session (handle_agent_response complete s agent_speech parsed))
  = goal_achieved s
    || ((MIN_TURNS_BEFORE_CLOSE <=? PhoneSystem.turn_count s + 1)
        && negb (is_closing_utterance agent_speech)
        && any_in goal_indicators (lower agent_speech)).
Proof.
  pose proof (handle_response complete s agent_speech parsed) as H. cbn zeta in H.
  destruct (MIN_TURNS_BEFORE_CLOSE <=? PhoneSystem.turn_count s + 1) eqn:Hmin;
    destruct (is_closing_utterance agent_speech) eqn:Hclose; cbn [andb negb] in *.
  - destruct H as (_ & _ & ->). rewrite orb_false_r. reflexivity.
  - destruct (25 <=? PhoneSystem.turn_count s + 1); destruct H as (_ & _ & ->); reflexivity.
  - apply Z.leb_gt in Hmin. unfold MIN_TURNS_BEFORE_CLOSE in Hmin.
    assert (H25 : (25 <=? PhoneSystem.turn_count s + 1) = false) by (apply Z.leb_gt; lia).
    rewrite H25 in H. destruct H as (_ & _ & ->). reflexivity.
  - apply Z.leb_gt in Hmin. unfold MIN_TURNS_BEFORE_CLOSE in Hmin.
    assert (H25 : (25 <=? PhoneSystem.turn_count s + 1) = false) by (apply Z.leb_gt; lia).
    rewrite H25 in H. destruct H as (_ & _ & ->). reflexivity.
Qed.

End Decisions.

(** ** The transcript *)

Section Transcript.

Variable complete : Completion.

(** The turns one delivery appends. *)
Lemma handle_appends (s : CallSession) (agent_speech : string)
    (parsed : option Q) :
  let conf := match parsed with Some c => c | None => 0%Q end in
  let n := PhoneSystem.turn_count s in
  let h := handle_agent_response complete s agent_speech parsed in
  exists tail,
    transcript (session h)
    = (transcript s ++ mkTurn agent agent_speech n (Some conf) :: tail)%list
    /\ PhoneSystem.turn_count (session h) = n + 1 + Z.of_nat (List.length tail)
    /\ ((tail = [] /\ phase_after h = ENDING)
        \/ exists reply,
             tail = [mkTurn patient reply (n + 1) None]
             /\ response h = [Pause (3 # 2); Say reply; Gather 10 3]).
Proof.
  cbn zeta. unfold handle_agent_response.
  set (conf := match parsed with Some c => c | None => 0%Q end).
  set (s1 := add_turn s (mkTurn agent agent_speech (PhoneSystem.turn_count s) (Some conf))).
  destruct (if MIN_TURNS_BEFORE_CLOSE <=? PhoneSystem.turn_count s1
            then (is_closing_utterance agent_speech, [ClosingCheck agent_speech])
            else (false, [])) as [closing checked].
  destruct closing.
  { exists []. cbn. repeat split; try lia. left. split; reflexivity. }
  pose proof (should_end_call_frame s1 agent_speech) as Hframe. cbn zeta in Hframe.
  destruct (should_end_call s1 agent_speech) as [ending s2]. cbn [snd] in Hframe.
  destruct Hframe as (Htc2 & Htr2 & _).
  destruct ending.
  { exists []. cbn [session response]. rewrite Htc2, Htr2. cbn.
    repeat split; try lia. left. split; reflexivity. }
  pose proof (generate_gpt_reply_truthy complete s2 agent_speech conf) as Htruthy.
  pose proof (generate_gpt_reply_frame complete s2 agent_speech conf) as Hf.
  destruct (generate_gpt_reply complete s2 agent_speech conf) as [[reply s3] generated].
  cbn [fst snd] in *. destruct Hf as (Htc3 & _ & Htr3).
  rewrite Htruthy. exists [mkTurn patient reply (PhoneSystem.turn_count s + 1) None].
  cbn [session response add_turn transcript PhoneSystem.turn_count].
  rewrite Htc3, Htr3, Htc2, Htr2. cbn [s1 add_turn transcript PhoneSystem.turn_count].
  split; [rewrite <- app_assoc; reflexivity|].
  split; [cbn; lia|].
  right. exists reply. split; reflexivity.
Qed.

(** X6.  A delivery appends the agent's turn, numbered with the old turn
    count, and nothing else when the dialogue ends; when the patient answers,
    the line recorded next, numbered one higher, is the very line spoken.
    The turn count grows by the number of turns appended. *)
Theorem delivery_appends_turns (s : CallSession) (agent_speech : string)
    (parsed : option Q) :
  let conf := match parsed with Some c => c | None => 0%Q end in
  let n := PhoneSystem.turn_count s in
  let h := handle_agent_response complete s agent_speech parsed in
  exists tail,
    transcript (session h)
    = (transcript s ++ mkTurn agent agent_speech n (Some conf) :: tail)%list
    /\ PhoneSystem.turn_count (session h) = n + 1 + Z.of_nat (List.length tail)
    /\ ((tail = [] /\ phase_after h = ENDING)
        \/ exists reply,
             tail = [mkTurn patient reply (n + 1) None]
             /\ response h = [Pause (3 # 2); Say reply; Gather 10 3]).
Proof.
  exact (handle_appends s agent_speech parsed).
Qed.

Lemma numbered_from_app (a b : list Turn) (n : Z) :
  Shape.numbered_from n a ->
  Shape.numbered_from (n + Z.of_nat (List.length a)) b ->
  Shape.numbered_from n (a ++ b).
Proof.
  revert n. induction a as [|t a IH]; intros n Ha Hb; cbn [app].
  - cbn in Hb. rewrite Z.add_0_r in Hb. exact Hb.
  - destruct Ha as [Ht Ha]. split; [exact Ht|].
    apply IH; [exact Ha|].
    replace (n + 1 + Z.of_nat (List.length a)) with (n + Z.of_nat (List.length (t :: a)));
      [exact Hb|]. cbn [List.length]. lia.
Qed.

Lemma patient_answers_app (a : list Turn) (first : Turn) (tail : list Turn) (b : bool) :
  Shape.patient_answers b a = true ->
  speaker first = agent ->
  Shape.patient_answers true tail = true ->
  Shape.patient_answers b (a ++ first :: tail) = true.
Proof.
  revert b. induction a as [|t a IH]; intros b Ha Hfirst Htail; cbn [app Shape.patient_answers].
  - rewrite Hfirst. exact Htail.
  - cbn [Shape.patient_answers] in Ha. destruct (speaker t).
    + apply IH; assumption.
    + apply andb_true_iff in Ha. destruct Ha as [-> Ha]. cbn [andb].
      apply IH; assumption.
Qed.

(** The three facts every reachable transcript satisfies. *)
Lemma delivery_keeps_shape (s : CallSession) (agent_speech : string) (parsed : option Q) :
  PhoneSystem.turn_count s = Z.of_nat (List.length (transcript s)) ->
  Shape.numbered_from 0 (transcript s) ->
  Shape.patient_answers false (transcript s) = true ->
  let s' := session (handle_agent_response complete s agent_speech parsed) in
  PhoneSystem.turn_count s' = Z.of_nat (List.length (transcript s'))
  /\ Shape.numbered_from 0 (transcript s')
  /\ Shape.patient_answers false (transcript s') = true.
Proof.
  intros Hcount Hnum Hans. cbn zeta.
  destruct (handle_appends s agent_speech parsed) as (tail & Htr & Htc & Htail).
  cbn zeta in *. rewrite Htr, Htc. split; [|split].
  - rewrite length_app. cbn [List.length]. lia.
  - apply numbered_from_app; [exact Hnum|].
    rewrite <- Hcount. cbn [Shape.numbered_from turn]. split; [lia|].
    destruct Htail as [[-> _] | (reply & -> & _)]; cbn; auto.
  - apply patient_answers_app; [exact Hans | reflexivity |].
    destruct Htail as [[-> _] | (reply & -> & _)]; reflexivity.
Qed.

End Transcript.

Section Reachable.

(** X7.  In every session reached from a new one by any sequence of
    deliveries, the turn count is the length of the transcript, the recorded
    turn numbers are 0, 1, 2, ... in order, and every patient turn comes
    directly after an agent turn, so the patient never speaks first nor twice
    in a row. *)
Theorem reachable_transcript_shape (loaded : option Scenario.t) (sid scenario : string)
    (inputs : list Inbound) :
  let s := run (PhoneSystem.init loaded sid scenario) inputs in
  PhoneSystem.turn_count s = Z.of_nat (List.length (transcript s))
  /\ Shape.numbered_from 0 (transcript s)
  /\ Shape.patient_answers false (transcript s) = true.
Proof.
  cbn zeta.
  assert (Hstep : forall inputs s,
             PhoneSystem.turn_count s = Z.of_nat (List.length (transcript s))
             /\ Shape.numbered_from 0 (transcript s)
             /\ Shape.patient_answers false (transcript s) = true ->
             PhoneSystem.turn_count (run s inputs)
             = Z.of_nat (List.length (transcript (run s inputs)))
             /\ Shape.numbered_from 0 (transcript (run s inputs))
             /\ Shape.patient_answers false (transcript (run s inputs)) = true).
  { clear inputs. induction inputs as [|i rest IH]; intros s Hs; cbn [run]; [exact Hs|].
    apply IH. destruct Hs as (H1 & H2 & H3).
    apply delivery_keeps_shape; assumption. }
  apply Hstep. cbn. auto.
Qed.

End Reachable.

(** ** The dialogue history *)

Section History.

Variable complete : Completion.

Lemma exchanges_app (u a : Entry) :
  Shape.exchange u a = true ->
  forall (n : nat) (history : list Entry),
    (List.length history <= n)%nat ->
    Shape.exchanges history = true ->
    Shape.exchanges (history ++ [u; a]) = true.
Proof.
  intros Hua. induction n as [|n IH]; intros history Hlen Hh;
    destruct history as [|x [|y rest]]; cbn [Shape.exchanges app] in *;
    try discriminate Hh; try (rewrite Hua; reflexivity).
  - cbn in Hlen. lia.
  - apply andb_true_iff in Hh. destruct Hh as [Hxy Hrest]. rewrite Hxy. cbn [andb].
    apply IH; [cbn in Hlen; lia | exact Hrest].
Qed.

(** How one call of [generate_reply] leaves the manager. *)
Lemma generate_reply_manager (cm : ConversationManager) (agent_text : string) (conf : Q) :
  manager (generate_reply complete cm agent_text conf) = cm
  \/ exists messages patient_reply,
       In (CompletionRequest messages) (events (generate_reply complete cm agent_text conf))
       /\ generate_patient_reply complete messages = Returned patient_reply
       /\ manager (generate_reply complete cm agent_text conf)
          = record_exchange cm agent_text patient_reply.
Proof.
  destruct (generate_reply_events complete cm agent_text conf) as [Hnone | [messages Hone]].
  - left. apply generate_reply_silent. exact Hnone.
  - assert (Hin : In (CompletionRequest messages)
                     (events (generate_reply complete cm agent_text conf)))
      by (rewrite Hone; left; reflexivity).
    destruct (generate_reply_requested complete cm agent_text conf messages Hin) as [_ Hres].
    destruct (generate_patient_reply complete messages) as [patient_reply|] eqn:G.
    + right. exists messages, patient_reply. destruct Hres as [_ Hm]. auto.
    + left. destruct Hres as [_ Hm]. exact Hm.
Qed.

(** The facts every manager keeps. *)
Lemma generate_reply_keeps_shape (cm : ConversationManager) (agent_text : string) (conf : Q) :
  Shape.exchanges (conversation_history cm) = true ->
  Z.of_nat (List.length (conversation_history cm)) = 2 * Conversation.turn_count cm ->
  let cm' := manager (generate_reply complete cm agent_text conf) in
  scenario cm' = scenario cm
  /\ Shape.exchanges (conversation_history cm') = true
  /\ Z.of_nat (List.length (conversation_history cm')) = 2 * Conversation.turn_count cm'.
Proof.
  intros Hex Hlen. cbn zeta.
  destruct (generate_reply_manager cm agent_text conf)
    as [-> | (messages & patient_reply & _ & G & ->)]; [auto|].
  cbn [record_exchange scenario conversation_history Conversation.turn_count].
  split; [reflexivity|]. split.
  - apply (exchanges_app _ _) with (n := List.length (conversation_history cm));
      [|lia|exact Hex].
    pose proof (generate_patient_reply_guarded complete messages) as Hguard.
    rewrite G in Hguard. destruct Hguard as (_ & R & _).
    unfold Shape.exchange. cbn. rewrite R. reflexivity.
  - rewrite length_app. cbn [List.length app]. lia.
Qed.

(** The manager of a session after one delivery. *)
Lemma handle_manager (s : CallSession) (agent_speech : string) (parsed : option Q) :
  let conf := match parsed with Some c => c | None => 0%Q end in
  conversation_manager (session (handle_agent_response complete s agent_speech parsed))
  = conversation_manager s
  \/ exists cm,
       conversation_manager s = Some cm
       /\ conversation_manager (session (handle_agent_response complete s agent_speech parsed))
          = Some (manager (generate_reply complete cm agent_speech conf)).
Proof.
  cbn zeta. unfold handle_agent_response.
  set (conf := match parsed with Some c => c | None => 0%Q end).
  set (s1 := add_turn s (mkTurn agent agent_speech (PhoneSystem.turn_count s) (Some conf))).
  destruct (if MIN_TURNS_BEFORE_CLOSE <=? PhoneSystem.turn_count s1
            then (is_closing_utterance agent_speech, [ClosingCheck agent_speech])
            else (false, [])) as [closing checked].
  destruct closing; [left; reflexivity|].
  pose proof (should_end_call_frame s1 agent_speech) as Hframe. cbn zeta in Hframe.
  destruct (should_end_call s1 agent_speech) as [ending s2]. cbn [snd] in Hframe.
  destruct Hframe as (_ & _ & Hcm & _).
  destruct ending; [left; cbn [session]; rewrite Hcm; reflexivity|].
  unfold generate_gpt_reply. rewrite Hcm. cbn [s1 add_turn conversation_manager].
  destruct (conversation_manager s) as [cm|] eqn:M.
  - right. exists cm. split; [reflexivity|].
    destruct (result (generate_reply complete cm agent_speech conf)); reflexivity.
  - left. cbn. rewrite Hcm. cbn. exact M.
Qed.

End History.

Section Managers.

(** A manager in good shape: the loaded scenario, whole exchanges, and a
    counter that is half the length of the history. *)
Lemma run_keeps_manager_shape (sc : Scenario.t) (inputs : list Inbound) (s : CallSession) :
  (exists cm, conversation_manager s = Some cm /\ scenario cm = sc
     /\ Shape.exchanges (conversation_history cm) = true
     /\ Z.of_nat (List.length (conversation_history cm)) = 2 * Conversation.turn_count cm) ->
  exists cm, conversation_manager (run s inputs) = Some cm /\ scenario cm = sc
     /\ Shape.exchanges (conversation_history cm) = true
     /\ Z.of_nat (List.length (conversation_history cm)) = 2 * Conversation.turn_count cm.
Proof.
  revert s. induction inputs as [|i rest IH]; intros s Hs; cbn [run]; [exact Hs|].
  apply IH. destruct Hs as (cm & Hcm & Hsc & Hex & Hlen).
  destruct (handle_manager (service i) s (speech i) (stt_confidence i))
    as [Hsame | (cm0 & Hcm0 & Hnew)]; cbn zeta in *.
  - exists cm. rewrite Hsame. auto.
  - rewrite Hcm in Hcm0. injection Hcm0 as <-.
    destruct (generate_reply_keeps_shape (service i) cm (speech i)
                match stt_confidence i with Some c => c | None => 0%Q end Hex Hlen)
      as (Hsc' & Hex' & Hlen').
    eexists. split; [exact Hnew|]. rewrite Hsc'. auto.
Qed.

Lemma run_stays_without_manager (inputs : list Inbound) (s : CallSession) :
  conversation_manager s = None -> conversation_manager (run s inputs) = None.
Proof.
  revert s. induction inputs as [|i rest IH]; intros s Hs; cbn [run]; [exact Hs|].
  apply IH.
  destruct (handle_manager (service i) s (speech i) (stt_confidence i))
    as [Hsame | (cm0 & Hcm0 & _)]; cbn zeta in *.
  - rewrite Hsame. exact Hs.
  - rewrite Hs in Hcm0. discriminate Hcm0.
Qed.

(** X8.  In every session reached from a new one, a scenario that failed
    to load leaves the session without a manager for good; otherwise the
    manager still holds the loaded scenario, its history consists of whole
    exchanges only (an agent line under the user role with its "Agent: "
    prefix, then a patient line that passes the completion guard), and the
    history is twice as long as the manager's counter. *)
Theorem reachable_history_shape (loaded : option Scenario.t) (sid scenario_name : string)
    (inputs : list Inbound) :
  let s := run (PhoneSystem.init loaded sid scenario_name) inputs in
  match loaded with
  | None => conversation_manager s = None
  | Some sc =>
      exists cm,
        conversation_manager s = Some cm
        /\ scenario cm = sc
        /\ Shape.exchanges (conversation_history cm) = true
        /\ Z.of_nat (List.length (conversation_history cm)) = 2 * Conversation.turn_count cm
  end.
Proof.
  cbn zeta. destruct loaded as [sc|].
  - apply run_keeps_manager_shape. exists (Conversation.init sc). cbn. auto.
  - apply run_stays_without_manager. reflexivity.
Qed.

(** X9.  A session without a manager never asks the completion service:
    when the patient answers, the line comes from the rule table, and the
    session stays without a manager. *)
Theorem no_manager_no_completion (complete : Completion) (s : CallSession)
    (agent_speech : string) (parsed : option Q) :
  conversation_manager s = None ->
  let h := handle_agent_response complete s agent_speech parsed in
  conversation_manager (session h) = None
  /\ (forall messages, ~ In (CompletionRequest messages) (trace h))
  /\ (phase_after h = ACTIVE ->
      response h
      = [Pause (3 # 2); Say (generate_simple_reply_fallback agent_speech); Gather 10 3]).
Proof.
  intros Hnone. cbn zeta. split; [|split].
  - destruct (handle_manager complete s agent_speech parsed)
      as [Hsame | (cm0 & Hcm0 & _)].
    + rewrite Hsame. exact Hnone.
    + rewrite Hnone in Hcm0. discriminate Hcm0.
  - intros messages Hin.
    destruct (handle_requested complete s agent_speech parsed messages Hin)
      as (cm & reply & Hcm & _).
    rewrite Hnone in Hcm. discriminate Hcm.
  - unfold handle_agent_response.
    set (conf := match parsed with Some c => c | None => 0%Q end).
    set (s1 := add_turn s (mkTurn agent agent_speech (PhoneSystem.turn_count s) (Some conf))).
    destruct (if MIN_TURNS_BEFORE_CLOSE <=? PhoneSystem.turn_count s1
              then (is_closing_utterance agent_speech, [ClosingCheck agent_speech])
              else (false, [])) as [closing checked].
    destruct closing; [intros E; discriminate E|].
    pose proof (should_end_call_frame s1 agent_speech) as Hframe. cbn zeta in Hframe.
    destruct (should_end_call s1 agent_speech) as [ending s2]. cbn [snd] in Hframe.
    destruct Hframe as (_ & _ & Hcm & _).
    destruct ending; [intros E; discriminate E|].
    unfold generate_gpt_reply. rewrite Hcm. cbn [s1 add_turn conversation_manager].
    rewrite Hnone. rewrite generate_simple_reply_fallback_truthy. reflexivity.
Qed.

End Managers.

(** ** What is sent to the completion service *)

Section Requests.

Variable complete : Completion.

Lemma generate_reply_request (cm : ConversationManager) (agent_text : string) (conf : Q)
    (messages : list Message) :
  In (CompletionRequest messages) (events (generate_reply complete cm agent_text conf)) ->
  exists context goal,
    Scenario.patient_context (scenario cm) = Some context
    /\ Scenario.goal context = Some goal
    /\ messages
       = (SystemPrompt context :: map Chat (conversation_history cm)
            ++ [Chat (mkEntry user (user_content agent_text conf))])%list.
Proof.
  unfold generate_reply.
  destruct (verification_reply _ _); cbn [events]; [intros []|].
  destruct (completion_ack cm agent_text); cbn [events]; [intros []|].
  unfold generate_system_prompt.
  destruct (Scenario.patient_context (scenario cm)) as [context|]; cbn [events]; [|intros []].
  destruct (Scenario.goal context) as [goal|] eqn:Hgoal; cbn [events]; [|intros []].
  destruct (generate_patient_reply _ _); cbn [events];
    (intros [E|[]]; injection E as <-; exists context, goal; auto).
Qed.

(** X10.  When the scenario's patient context or its goal key is missing,
    [generate_reply] never reaches the completion service and leaves the
    manager alone: it returns the verification answer if there is one and
    raises otherwise, and [generate_gpt_reply] then answers from the rule
    table. *)
Theorem missing_goal_falls_back_to_rules (cm : ConversationManager) (s : CallSession)
    (agent_text : string) (conf : Q) :
  Scenario.goal (Scenario.context_of (scenario cm)) = None ->
  conversation_manager s = Some cm ->
  let r := generate_reply complete cm agent_text conf in
  let answered := verification_reply (Scenario.context_of (scenario cm)) (lower agent_text) in
  events r = [] /\ manager r = cm
  /\ result r = match answered with Some v => Returned v | None => Raised end
  /\ generate_gpt_reply complete s agent_text conf
     = (match answered with
        | Some v => v
        | None => generate_simple_reply_fallback agent_text
        end, set_manager s cm, []).
Proof.
  intros Hgoal Hcm. cbn zeta.
  assert (Hprompt : generate_system_prompt cm = Raised).
  { unfold generate_system_prompt. unfold Scenario.context_of in Hgoal.
    destruct (Scenario.patient_context (scenario cm)) as [context|]; [|reflexivity].
    rewrite Hgoal. reflexivity. }
  assert (Hack : completion_ack cm agent_text = false).
  { unfold completion_ack, _is_goal_completed, goal_of. rewrite Hgoal.
    destruct (any_in completion_signals (lower agent_text)); reflexivity. }
  assert (Hr : generate_reply complete cm agent_text conf
               = mkReply match verification_reply (Scenario.context_of (scenario cm))
                                 (lower agent_text) with
                         | Some v => Returned v
                         | None => Raised
                         end cm []).
  { unfold generate_reply. rewrite Hack, Hprompt.
    destruct (verification_reply _ _); reflexivity. }
  unfold generate_gpt_reply. rewrite Hcm, Hr. cbn [events manager result].
  repeat split. destruct (verification_reply _ _); reflexivity.
Qed.

End Requests.

(** ** Where the history comes from *)

Section Provenance.

Lemma from_service_more (context : Scenario.PatientContext) (inputs inputs' : list Inbound) :
  (forall i, In i inputs -> In i inputs') ->
  forall (n : nat) (history before : list Entry),
    (List.length history <= n)%nat ->
    Shape.from_service context inputs before history ->
    Shape.from_service context inputs' before history.
Proof.
  intros Hsub. induction n as [|n IH]; intros history before Hlen Hh;
    destruct history as [|u [|a rest]]; cbn [Shape.from_service] in *;
    try exact I; try contradiction.
  - cbn in Hlen. lia.
  - destruct Hh as [(i & Hin & Hrest) Htail]. split.
    + exists i. split; [apply Hsub; exact Hin | exact Hrest].
    + apply IH; [cbn in Hlen; lia | exact Htail].
Qed.

Lemma from_service_snoc (context : Scenario.PatientContext) (inputs : list Inbound)
    (u a : Entry) :
  forall (n : nat) (history before : list Entry),
    (List.length history <= n)%nat ->
    Shape.from_service context inputs before history ->
    Shape.from_service context inputs (before ++ history) [u; a] ->
    Shape.from_service context inputs before (history ++ [u; a]).
Proof.
  induction n as [|n IH]; intros history before Hlen Hh Hnew;
    destruct history as [|x [|y rest]]; cbn [Shape.from_service app] in Hh |- *;
    try contradiction.
  - rewrite app_nil_r in Hnew. exact Hnew.
  - cbn in Hlen. lia.
  - rewrite app_nil_r in Hnew. exact Hnew.
  - destruct Hh as [Hxy Htail]. split; [exact Hxy|].
    apply IH; [cbn in Hlen; lia | exact Htail |].
    rewrite <- app_assoc. exact Hnew.
Qed.

(** The history of a session reached from a new one comes from the
    completion service, exchange by exchange. *)
Lemma run_history_from_service (sc : Scenario.t) (context : Scenario.PatientContext)
    (sid scenario_name : string) (inputs : list Inbound) :
  Scenario.patient_context sc = Some context ->
  exists cm,
    conversation_manager (run (PhoneSystem.init (Some sc) sid scenario_name) inputs) = Some cm
    /\ scenario cm = sc
    /\ Shape.from_service context inputs [] (conversation_history cm).
Proof.
  intros Hctx. induction inputs as [|i inputs IH] using rev_ind.
  - exists (Conversation.init sc). cbn. auto.
  - destruct IH as (cm & Hcm & Hsc & Hfrom).
    assert (Hold : Shape.from_service context (inputs ++ [i]) [] (conversation_history cm)).
    { apply (from_service_more context inputs (inputs ++ [i]))
        with (n := List.length (conversation_history cm)); [|lia|exact Hfrom].
      intros i0 Hin. apply in_or_app. left. exact Hin. }
    rewrite run_app. cbn [run].
    destruct (handle_manager (service i)
                (run (PhoneSystem.init (Some sc) sid scenario_name) inputs)
                (speech i) (stt_confidence i)) as [Hsame | (cm0 & Hcm0 & Hnew)];
      cbn zeta in *.
    + exists cm. rewrite Hsame. auto.
    + rewrite Hcm in Hcm0. injection Hcm0 as <-.
      destruct (generate_reply_manager (service i) cm (speech i) (Shape.confidence_of i))
        as [Hkeep | (messages & patient_reply & Hin & Hgen & Hrec)].
      * exists cm. split; [rewrite Hnew; f_equal; exact Hkeep | auto].
      * destruct (generate_reply_request (service i) cm (speech i) (Shape.confidence_of i)
                    messages Hin) as (context' & goal & Hctx' & _ & Hmessages).
        rewrite Hsc, Hctx in Hctx'. injection Hctx' as <-.
        exists (record_exchange cm (speech i) patient_reply).
        split; [rewrite Hnew; f_equal; exact Hrec|].
        split; [exact Hsc|].
        cbn [record_exchange conversation_history].
        change (conversation_history cm ++ [mkEntry user ("Agent: " ++ speech i)]
                  ++ [mkEntry assistant patient_reply])%list
          with (conversation_history cm
                  ++ [mkEntry user ("Agent: " ++ speech i); mkEntry assistant patient_reply])%list.
        apply (from_service_snoc context (inputs ++ [i]))
          with (n := List.length (conversation_history cm)); [lia | exact Hold |].
        cbn [Shape.from_service app]. split; [|exact I].
        exists i. split; [apply in_or_app; right; left; reflexivity|].
        split; [reflexivity|]. split; [reflexivity|].
        cbn [content]. rewrite <- Hmessages. exact Hgen.
Qed.

(** When a delivery changes the manager, the reply generator ran and its
    events are in the delivery's trace. *)
Lemma handle_manager_events (complete : Completion) (s : CallSession)
    (agent_speech : string) (parsed : option Q) :
  let conf := match parsed with Some c => c | None => 0%Q end in
  let h := handle_agent_response complete s agent_speech parsed in
  conversation_manager (session h) = conversation_manager s
  \/ exists cm,
       conversation_manager s = Some cm
       /\ conversation_manager (session h)
          = Some (manager (generate_reply complete cm agent_speech conf))
       /\ forall e, In e (events (generate_reply complete cm agent_speech conf)) ->
                    In e (trace h).
Proof.
  cbn zeta. unfold handle_agent_response.
  set (conf := match parsed with Some c => c | None => 0%Q end).
  set (s1 := add_turn s (mkTurn agent agent_speech (PhoneSystem.turn_count s) (Some conf))).
  destruct (if MIN_TURNS_BEFORE_CLOSE <=? PhoneSystem.turn_count s1
            then (is_closing_utterance agent_speech, [ClosingCheck agent_speech])
            else (false, [])) as [closing checked].
  destruct closing; [left; reflexivity|].
  pose proof (should_end_call_frame s1 agent_speech) as Hframe. cbn zeta in Hframe.
  destruct (should_end_call s1 agent_speech) as [ending s2]. cbn [snd] in Hframe.
  destruct Hframe as (_ & _ & Hcm & _).
  destruct ending; [left; cbn [session]; rewrite Hcm; reflexivity|].
  unfold generate_gpt_reply. rewrite Hcm. cbn [s1 add_turn conversation_manager].
  destruct (conversation_manager s) as [cm|] eqn:M.
  - right. exists cm. split; [reflexivity|].
    destruct (result (generate_reply complete cm agent_speech conf));
      (split; [reflexivity|]); intros e He; cbn [trace];
      apply in_or_app; right; apply in_or_app; right; apply in_or_app; left; exact He.
  - left. cbn. rewrite Hcm. cbn. exact M.
Qed.

(** X11.  Whatever a session reached from a new one sends to the
    completion service is the system prompt of its scenario, then the
    manager's history, then the current agent line under the user role.
    Every exchange of that history pairs the agent line of an earlier
    delivery of the call with the line [generate_patient_reply] returned for
    that delivery's own request (the prompt, the exchanges before it, the
    agent line).  And a delivery whose reply did not come from a returning
    completion call -- a verification answer, a closing acknowledgment, a
    rule-table line, the clarification after a raised error, or no reply at
    all -- leaves the manager as it was, so nothing of it is part of any
    later request. *)
Theorem requests_carry_whole_exchanges (complete : Completion) (sc : Scenario.t)
    (sid scenario_name : string) (inputs : list Inbound) (agent_speech : string)
    (parsed : option Q) (messages : list Message) :
  let s := run (PhoneSystem.init (Some sc) sid scenario_name) inputs in
  let conf := match parsed with Some c => c | None => 0%Q end in
  let h := handle_agent_response complete s agent_speech parsed in
  (In (CompletionRequest messages) (trace h) ->
   exists context cm,
     Scenario.patient_context sc = Some context
     /\ conversation_manager s = Some cm
     /\ Shape.exchanges (conversation_history cm) = true
     /\ Shape.from_service context inputs [] (conversation_history cm)
     /\ messages
        = (SystemPrompt context :: map Chat (conversation_history cm)
             ++ [Chat (mkEntry user (user_content agent_speech conf))])%list)
  /\ ((forall sent, In (CompletionRequest sent) (trace h) -> complete sent = ApiError) ->
      conversation_manager (session h) = conversation_manager s).
Proof.
  cbn zeta. split.
  - intros Hin.
    destruct (handle_requested complete _ agent_speech parsed messages Hin)
      as (cm & reply & Hcm & Hasked & _).
    destruct (run_keeps_manager_shape sc inputs (PhoneSystem.init (Some sc) sid scenario_name))
      as (cm' & Hcm' & Hsc & Hex & _).
    { exists (Conversation.init sc). cbn. auto. }
    rewrite Hcm in Hcm'. injection Hcm' as <-.
    destruct (generate_reply_request complete cm agent_speech _ messages Hasked)
      as (context & goal & Hctx & _ & Hm).
    rewrite Hsc in Hctx.
    destruct (run_history_from_service sc context sid scenario_name inputs Hctx)
      as (cm2 & Hcm2 & _ & Hfrom).
    rewrite Hcm in Hcm2. injection Hcm2 as <-.
    exists context, cm. auto.
  - intros Hraised.
    destruct (handle_manager_events complete
                (run (PhoneSystem.init (Some sc) sid scenario_name) inputs)
                agent_speech parsed) as [Hsame | (cm & Hcm & Hnew & Hev)];
      cbn zeta in *; [exact Hsame|].
    rewrite Hnew, Hcm. f_equal.
    destruct (generate_reply_manager complete cm agent_speech
                match parsed with Some c => c | None => 0%Q end)
      as [Hkeep | (sent & patient_reply & Hin & Hgen & _)]; [exact Hkeep|].
    exfalso. specialize (Hraised sent (Hev _ Hin)).
    unfold generate_patient_reply in Hgen. rewrite Hraised in Hgen. discriminate Hgen.
Qed.

End Provenance.

(** ** The session registry *)

Section RegistryLaws.

Lemma get_set_same (r : Registry.t) (k : string) (v : CallSession) :
  Registry.get (Registry.set r k v) k = Some v.
Proof.
  induction r as [|[k' v'] r IH]; cbn [Registry.set Registry.get].
  - rewrite String.eqb_refl. reflexivity.
  - destruct (k' =? k)%string eqn:E; cbn [Registry.get].
    + rewrite String.eqb_refl. reflexivity.
    + rewrite E. exact IH.
Qed.

Lemma get_set_other (r : Registry.t) (k k' : string) (v : CallSession) :
  k' <> k -> Registry.get (Registry.set r k v) k' = Registry.get r k'.
Proof.
  intros Hne. induction r as [|[k0 v0] r IH]; cbn [Registry.set Registry.get].
  - destruct (k =? k')%string eqn:E; [|reflexivity].
    apply String.eqb_eq in E. congruence.
  - destruct (k0 =? k)%string eqn:E; cbn [Registry.get].
    + apply String.eqb_eq in E. subst k0.
      destruct (k =? k')%string eqn:E'; [|reflexivity].
      apply String.eqb_eq in E'. congruence.
    + destruct (k0 =? k')%string; [reflexivity | exact IH].
Qed.

Lemma get_remove_same (r : Registry.t) (k : string) :
  Registry.get (Registry.remove r k) k = None.
Proof.
  induction r as [|[k' v'] r IH]; cbn [Registry.remove Registry.get]; [reflexivity|].
  destruct (k' =? k)%string eqn:E; [exact IH|].
  cbn [Registry.get]. rewrite E. exact IH.
Qed.

Lemma get_remove_other (r : Registry.t) (k k' : string) :
  k' <> k -> Registry.get (Registry.remove r k) k' = Registry.get r k'.
Proof.
  intros Hne. induction r as [|[k0 v0] r IH]; cbn [Registry.remove Registry.get]; [reflexivity|].
  destruct (k0 =? k)%string eqn:E.
  - apply String.eqb_eq in E. subst k0.
    destruct (k =? k')%string eqn:E'; [|exact IH].
    apply String.eqb_eq in E'. congruence.
  - cbn [Registry.get]. destruct (k0 =? k')%string; [reflexivity | exact IH].
Qed.

Lemma remove_absent (r : Registry.t) (k : string) :
  Registry.get r k = None -> Registry.remove r k = r.
Proof.
  induction r as [|[k' v'] r IH]; cbn [Registry.remove Registry.get]; [reflexivity|].
  destruct (k' =? k)%string; [discriminate|].
  intros H. rewrite (IH H). reflexivity.
Qed.

End RegistryLaws.

(** ** The webhooks *)

Section WebhookLaws.

Variable load : Webhooks.Loader.


(** X14.  The agent-utterance webhook stores, under its own call
    identifier, the session the handler leaves behind, started from the
    registered session or, for an unknown call, from a new session for the
    default scenario; every other call's entry is untouched. *)
Theorem handle_agent_response_updates_own_call (complete : Completion) (calls : Registry.t)
    (sid agent_speech : string) (parsed : option Q) :
  let out := Webhooks.handle_agent_response load complete calls sid agent_speech parsed in
  let start :=
    match Registry.get calls sid with
    | Some s => s
    | None => PhoneSystem.init (load "appointment_scheduling") sid "appointment_scheduling"
    end in
  snd out = PhoneSystem.handle_agent_response complete start agent_speech parsed
  /\ Registry.get (fst out) sid = Some (session (snd out))
  /\ forall k, k <> sid -> Registry.get (fst out) k = Registry.get calls k.
Proof.
  cbn zeta. unfold Webhooks.handle_agent_response. cbn [fst snd].
  split; [reflexivity|]. split; [apply get_set_same|].
  intros k Hk. apply get_set_other. exact Hk.
Qed.

(** X15.  The call-pickup webhook never replaces a registered session; for
    an unknown call it registers a new session (no turns, goal flag unset)
    for the requested scenario, or the default one when none is requested;
    other calls are untouched and the TwiML is always the same: listen, and
    if nothing is heard say "Hello?" and hang up. *)
Theorem voice_webhook_registers_once (calls : Registry.t) (sid : string)
    (requested : option string) :
  let out := Webhooks.voice_webhook load calls sid requested in
  let scenario := match requested with Some n => n | None => "appointment_scheduling" end in
  Registry.get (fst out) sid
  = Some match Registry.get calls sid with
         | Some s => s
         | None => PhoneSystem.init (load scenario) sid scenario
         end
  /\ (forall k, k <> sid -> Registry.get (fst out) k = Registry.get calls k)
  /\ snd out = [Gather 20 3; Pause 1; Say "Hello?"; Hangup]
  /\ fst (Webhooks.voice_webhook load (fst out) sid requested) = fst out.
Proof.
  cbn zeta. unfold Webhooks.voice_webhook, Registry.contains. cbn [fst snd].
  destruct (Registry.get calls sid) as [s|] eqn:G.
  - rewrite G. auto.
  - rewrite get_set_same. split; [reflexivity|].
    split; [intros k Hk; apply get_set_other; exact Hk|]. auto.
Qed.

End WebhookLaws.

(** ** Calls do not interfere *)

Section Independence.

Variable load : Webhooks.Loader.

Lemma deliver_all_cons (calls : Registry.t) (e : Webhooks.Signal) (rest : list Webhooks.Signal) :
  Webhooks.deliver_all load calls (e :: rest)
  = Webhooks.deliver_all load (Webhooks.deliver load calls e) rest.
Proof.
  reflexivity.
Qed.

(** An event leaves the entries of other calls alone. *)
Lemma deliver_other (calls : Registry.t) (e : Webhooks.Signal) (k : string) :
  k <> Transport.addressee e ->
  Registry.get (Webhooks.deliver load calls e) k = Registry.get calls k.
Proof.
  intros Hk. destruct e as [sid requested | sid i | sid status d];
    cbn [Webhooks.deliver Transport.addressee] in *.
  - unfold Webhooks.voice_webhook. cbn [fst].
    destruct (Registry.contains calls sid); [reflexivity|].
    apply get_set_other. exact Hk.
  - unfold Webhooks.handle_agent_response. cbn [fst]. apply get_set_other. exact Hk.
  - unfold Webhooks.call_status.
    destruct (Registry.get calls sid); [|reflexivity].
    destruct (status =? "completed")%string; [|reflexivity].
    destruct d; cbn [fst]; [|reflexivity].
    apply get_remove_other. exact Hk.
Qed.

(** What an event does to its own call depends on that call's entry only. *)
Lemma deliver_same (calls calls' : Registry.t) (e : Webhooks.Signal) :
  Registry.get calls (Transport.addressee e) = Registry.get calls' (Transport.addressee e) ->
  Registry.get (Webhooks.deliver load calls e) (Transport.addressee e)
  = Registry.get (Webhooks.deliver load calls' e) (Transport.addressee e).
Proof.
  destruct e as [sid requested | sid i | sid status d];
    cbn [Webhooks.deliver Transport.addressee]; intros Hsame.
  - unfold Webhooks.voice_webhook, Registry.contains. cbn [fst]. rewrite <- Hsame.
    destruct (Registry.get calls sid) eqn:G.
    + rewrite G. exact Hsame.
    + rewrite !get_set_same. reflexivity.
  - unfold Webhooks.handle_agent_response. cbn [fst].
    rewrite !get_set_same, Hsame. reflexivity.
  - unfold Webhooks.call_status. rewrite <- Hsame.
    destruct (Registry.get calls sid) eqn:G; [|cbn [fst]; rewrite G; exact Hsame].
    destruct (status =? "completed")%string; [|cbn [fst]; rewrite G; exact Hsame].
    destruct d; cbn [fst].
    + rewrite !get_remove_same. reflexivity.
    + rewrite G. exact Hsame.
Qed.

Lemma deliver_all_own_events (events : list Webhooks.Signal) (calls calls' : Registry.t)
    (k : string) :
  Registry.get calls k = Registry.get calls' k ->
  Registry.get (Webhooks.deliver_all load calls events) k
  = Registry.get (Webhooks.deliver_all load calls' (Transport.addressed_to k events)) k.
Proof.
  revert calls calls'. induction events as [|e rest IH]; intros calls calls' Hsame.
  - exact Hsame.
  - rewrite deliver_all_cons. unfold Transport.addressed_to. cbn [filter].
    destruct (Transport.addressee e =? k)%string eqn:E.
    + apply String.eqb_eq in E. rewrite deliver_all_cons. apply IH.
      subst k. apply deliver_same. exact Hsame.
    + apply String.eqb_neq in E. apply IH.
      rewrite deliver_other; [exact Hsame | congruence].
Qed.

(** X16.  What the registry holds for a call after any sequence of
    transport events is what it would hold had only that call's own events
    been delivered: events of other calls, however interleaved, make no
    difference; and two events of different calls can be swapped. *)
Theorem calls_are_independent (calls : Registry.t) (events : list Webhooks.Signal)
    (k : string) :
  Registry.get (Webhooks.deliver_all load calls events) k
  = Registry.get (Webhooks.deliver_all load calls (Transport.addressed_to k events)) k
  /\ forall e1 e2,
       Transport.addressee e1 <> Transport.addressee e2 ->
       Registry.get (Webhooks.deliver load (Webhooks.deliver load calls e1) e2) k
       = Registry.get (Webhooks.deliver load (Webhooks.deliver load calls e2) e1) k.
Proof.
  split; [apply deliver_all_own_events; reflexivity|].
  intros e1 e2 Hne.
  destruct (String.eqb_spec k (Transport.addressee e1)) as [-> | H1].
  - rewrite (deliver_other _ e2); [|exact Hne].
    apply deliver_same. symmetry. apply deliver_other. exact Hne.
  - rewrite (deliver_other (Webhooks.deliver load calls e2) e1); [|exact H1].
    destruct (String.eqb_spec k (Transport.addressee e2)) as [-> | H2].
    + apply deliver_same. apply deliver_other. congruence.
    + rewrite !deliver_other; auto.
Qed.

Lemma handle_call_sid (complete : Completion) (s : CallSession) (agent_speech : string)
    (parsed : option Q) :
  call_sid (session (handle_agent_response complete s agent_speech parsed)) = call_sid s.
Proof.
  unfold handle_agent_response.
  set (conf := match parsed with Some c => c | None => 0%Q end).
  set (s1 := add_turn s (mkTurn agent agent_speech (PhoneSystem.turn_count s) (Some conf))).
  destruct (if MIN_TURNS_BEFORE_CLOSE <=? PhoneSystem.turn_count s1
            then (is_closing_utterance agent_speech, [ClosingCheck agent_speech])
            else (false, [])) as [closing checked].
  destruct closing; [reflexivity|].
  pose proof (should_end_call_frame s1 agent_speech) as Hframe. cbn zeta in Hframe.
  destruct (should_end_call s1 agent_speech) as [ending s2]. cbn [snd] in Hframe.
  destruct Hframe as (_ & _ & _ & Hsid & _).
  destruct ending; [exact Hsid|].
  unfold generate_gpt_reply.
  destruct (conversation_manager s2) as [cm|]; [|cbn; exact Hsid].
  destruct (result (generate_reply complete cm agent_speech conf)); cbn; exact Hsid.
Qed.

(** X17.  Every session the webhooks have put in a registry that started
    empty is filed under its own call identifier, counts as many turns as its
    transcript holds, numbers them 0, 1, 2, ..., and never lets the patient
    speak first or twice in a row. *)
Theorem registered_sessions_shape (events : list Webhooks.Signal) (k : string)
    (s : CallSession) :
  Registry.get (Webhooks.deliver_all load Registry.empty events) k = Some s ->
  call_sid s = k
  /\ PhoneSystem.turn_count s = Z.of_nat (List.length (transcript s))
  /\ Shape.numbered_from 0 (transcript s)
  /\ Shape.patient_answers false (transcript s) = true.
Proof.
  assert (Hfresh : forall loaded sid scenario,
             call_sid (PhoneSystem.init loaded sid scenario) = sid
             /\ PhoneSystem.turn_count (PhoneSystem.init loaded sid scenario)
                = Z.of_nat (List.length (transcript (PhoneSystem.init loaded sid scenario)))
             /\ Shape.numbered_from 0 (transcript (PhoneSystem.init loaded sid scenario))
             /\ Shape.patient_answers false (transcript (PhoneSystem.init loaded sid scenario))
                = true).
  { intros. cbn. auto. }
  assert (Hstep : forall signals calls,
             (forall k s, Registry.get calls k = Some s ->
                call_sid s = k
                /\ PhoneSystem.turn_count s = Z.of_nat (List.length (transcript s))
                /\ Shape.numbered_from 0 (transcript s)
                /\ Shape.patient_answers false (transcript s) = true) ->
             forall k s, Registry.get (Webhooks.deliver_all load calls signals) k = Some s ->
                call_sid s = k
                /\ PhoneSystem.turn_count s = Z.of_nat (List.length (transcript s))
                /\ Shape.numbered_from 0 (transcript s)
                /\ Shape.patient_answers false (transcript s) = true).
  { clear events k s. induction signals as [|e rest IH]; intros calls Hcalls; [exact Hcalls|].
    rewrite deliver_all_cons. apply IH. clear IH rest.
    intros k s Hget.
    destruct (String.eqb_spec k (Transport.addressee e)) as [-> | Hk].
    - destruct e as [sid requested | sid i | sid status d];
        cbn [Webhooks.deliver Transport.addressee] in Hget.
      + unfold Webhooks.voice_webhook, Registry.contains in Hget. cbn [fst] in Hget.
        destruct (Registry.get calls sid) eqn:G.
        * cbv iota in Hget. apply Hcalls. exact Hget.
        * cbv iota in Hget. rewrite get_set_same in Hget. injection Hget as <-. apply Hfresh.
      + unfold Webhooks.handle_agent_response in Hget. cbn [fst] in Hget.
        rewrite get_set_same in Hget. injection Hget as <-.
        assert (Hstart : forall s0,
                   call_sid s0 = sid
                   /\ PhoneSystem.turn_count s0 = Z.of_nat (List.length (transcript s0))
                   /\ Shape.numbered_from 0 (transcript s0)
                   /\ Shape.patient_answers false (transcript s0) = true ->
                   call_sid (session (handle_agent_response (service i) s0 (speech i)
                                        (stt_confidence i))) = sid
                   /\ PhoneSystem.turn_count
                        (session (handle_agent_response (service i) s0 (speech i)
                                    (stt_confidence i)))
                      = Z.of_nat (List.length
                          (transcript (session (handle_agent_response (service i) s0
                                                  (speech i) (stt_confidence i)))))
                   /\ Shape.numbered_from 0
                        (transcript (session (handle_agent_response (service i) s0
                                                (speech i) (stt_confidence i))))
                   /\ Shape.patient_answers false
                        (transcript (session (handle_agent_response (service i) s0
                                                (speech i) (stt_confidence i)))) = true).
        { intros s0 (Hsid & H1 & H2 & H3). split.
          - rewrite handle_call_sid. exact Hsid.
          - apply delivery_keeps_shape; assumption. }
        destruct (Registry.get calls sid) as [s0|] eqn:G.
        * apply Hstart. apply Hcalls. exact G.
        * apply Hstart. apply Hfresh.
      + unfold Webhooks.call_status in Hget.
        destruct (Registry.get calls sid) as [s0|] eqn:G.
        * destruct (status =? "completed")%string; [destruct d|]; cbn [fst] in Hget.
          -- rewrite get_remove_same in Hget. discriminate Hget.
          -- apply Hcalls. exact Hget.
          -- apply Hcalls. exact Hget.
        * cbn [fst] in Hget. apply Hcalls. exact Hget.
    - rewrite deliver_other in Hget; [|exact Hk]. apply Hcalls. exact Hget. }
  apply Hstep. intros k0 s0 Hget. discriminate Hget.
Qed.

End Independence.

(** ** Scenario files *)

Section Loader.

Lemma join_starts (sep p : string) (c : ascii) (rest : list string) :
  join sep (String c p :: rest) <> EmptyString.
Proof.
  destruct rest; cbn; discriminate.
Qed.

(** X18.  The behaviour text built from the rich keys is empty exactly
    when none of the four sections (anti-repetition rules, question
    priorities, response stages, tone) has an item. *)
Theorem build_behavior_empty_iff (pc : ScenarioLoader.RichContext) :
  ScenarioLoader._build_behavior_from_stages pc = EmptyString
  <-> ScenarioLoader.some_items (ScenarioLoader.anti_repetition pc) = []
      /\ ScenarioLoader.some_items (ScenarioLoader.question_priority pc) = []
      /\ ScenarioLoader.some_items (ScenarioLoader.response_stages pc) = []
      /\ ScenarioLoader.some_items (ScenarioLoader.tone pc) = [].
Proof.
  unfold ScenarioLoader._build_behavior_from_stages, ScenarioLoader.behavior_parts.
  destruct (ScenarioLoader.some_items (ScenarioLoader.anti_repetition pc)) as [|a anti].
  - destruct (ScenarioLoader.some_items (ScenarioLoader.question_priority pc)) as [|q qp].
    + destruct (ScenarioLoader.some_items (ScenarioLoader.response_stages pc)) as [|st stages].
      * destruct (ScenarioLoader.some_items (ScenarioLoader.tone pc)) as [|t tones].
        -- cbn. tauto.
        -- cbn [app]. split; [|intros (_ & _ & _ & E); discriminate E].
           intros E. exfalso. revert E. apply join_starts.
      * cbn [app]. split; [|intros (_ & _ & E & _); discriminate E].
        intros E. exfalso. revert E. apply join_starts.
    + cbn [app]. split; [|intros (_ & E & _); discriminate E].
      intros E. exfalso. revert E. apply join_starts.
  - cbn [app]. split; [|intros (E & _); discriminate E].
    intros E. exfalso. revert E. apply join_starts.
Qed.

Lemma normalize_context_goal (data : ScenarioLoader.FileData) (pc : ScenarioLoader.RichContext) :
  Scenario.goal (ScenarioLoader.normalize_context data pc)
  = match Scenario.goal (ScenarioLoader.plain pc) with
    | Some g => Some g
    | None => ScenarioLoader.file_goal data
    end.
Proof.
  unfold ScenarioLoader.normalize_context.
  set (c1 := match ScenarioLoader.response_stages pc, ScenarioLoader.anti_repetition pc with
             | None, None => ScenarioLoader.plain pc
             | _, _ => _
             end).
  assert (H1 : Scenario.goal c1 = Scenario.goal (ScenarioLoader.plain pc)).
  { subst c1. destruct (ScenarioLoader.response_stages pc), (ScenarioLoader.anti_repetition pc);
      reflexivity. }
  set (c2 := match ScenarioLoader.system_prompt_addendum data with
             | Some addendum => _
             | None => c1
             end).
  assert (H2 : Scenario.goal c2 = Scenario.goal (ScenarioLoader.plain pc)).
  { subst c2. destruct (ScenarioLoader.system_prompt_addendum data) as [addendum|];
      [destruct (truthy addendum)|]; exact H1. }
  rewrite <- H2.
  destruct (Scenario.goal c2) eqn:G; [rewrite G; reflexivity|].
  destruct (ScenarioLoader.file_goal data); [reflexivity | exact G].
Qed.

Lemma normalize_context_identity (data : ScenarioLoader.FileData)
    (pc : ScenarioLoader.RichContext) :
  let c := ScenarioLoader.normalize_context data pc in
  Scenario.name c = Scenario.name (ScenarioLoader.plain pc)
  /\ Scenario.caller_name c = Scenario.caller_name (ScenarioLoader.plain pc)
  /\ Scenario.dob c = Scenario.dob (ScenarioLoader.plain pc).
Proof.
  cbn zeta. unfold ScenarioLoader.normalize_context.
  destruct (ScenarioLoader.response_stages pc), (ScenarioLoader.anti_repetition pc),
    (ScenarioLoader.system_prompt_addendum data) as [addendum|];
    try destruct (truthy addendum);
    repeat match goal with
      | |- context [match ?x with Some _ => _ | None => _ end] => destruct x
      end; cbn; auto.
Qed.

(** X19.  A manager built from a scenario file can raise on its system
    prompt only in one case: the file has a patient context without a goal
    and no goal at top level either.  Otherwise the goal the manager sees is
    the patient context's own goal when it has one, else the top-level goal,
    else, for a file without patient context, "Help the caller.". *)
Theorem file_scenario_prompt_needs_goal (data : ScenarioLoader.FileData) (name : string) :
  let sc := ScenarioLoader._normalize_scenario_from_file data name in
  let declared :=
    match ScenarioLoader.file_patient_context data with
    | Some pc =>
        match Scenario.goal (ScenarioLoader.plain pc) with
        | Some g => Some g
        | None => ScenarioLoader.file_goal data
        end
    | None =>
        Some match ScenarioLoader.file_goal data with
             | Some g => g
             | None => "Help the caller."
             end
    end in
  Scenario.goal (Scenario.context_of sc) = declared
  /\ (generate_system_prompt (Conversation.init sc) = Raised <-> declared = None)
  /\ (declared <> None ->
      exists context,
        Scenario.patient_context sc = Some context
        /\ generate_system_prompt (Conversation.init sc) = Returned (SystemPrompt context)).
Proof.
  cbn zeta. unfold ScenarioLoader._normalize_scenario_from_file, generate_system_prompt.
  destruct (ScenarioLoader.file_patient_context data) as [pc|];
    cbn [Conversation.init scenario Scenario.patient_context Scenario.context_of Scenario.goal].
  - rewrite normalize_context_goal.
    destruct (match Scenario.goal (ScenarioLoader.plain pc) with
              | Some g => Some g
              | None => ScenarioLoader.file_goal data
              end) as [g|] eqn:G.
    + split; [reflexivity|]. split; [split; discriminate|].
      intros _. eexists. split; reflexivity.
    + split; [reflexivity|]. split; [split; reflexivity|].
      intros H. contradiction H. reflexivity.
  - split; [reflexivity|]. split; [split; discriminate|].
    intros _. eexists. split; reflexivity.
Qed.

(** X20.  Loading never changes who the patient is: the name and the
    date-of-birth line the verification block answers with are those of the
    file's own patient context, whatever rich keys, addendum or top-level
    goal the file carries; and a file without patient context always gives
    "Yes, this is Lucas." and "February 17th, 2026.". *)
Theorem file_scenario_identity (data : ScenarioLoader.FileData) (name : string) :
  let sc := ScenarioLoader._normalize_scenario_from_file data name in
  match ScenarioLoader.file_patient_context data with
  | Some pc =>
      name_reply (Scenario.context_of sc) = name_reply (ScenarioLoader.plain pc)
      /\ dob_reply (Scenario.context_of sc) = dob_reply (ScenarioLoader.plain pc)
  | None =>
      name_reply (Scenario.context_of sc) = "Yes, this is Lucas."
      /\ dob_reply (Scenario.context_of sc) = "February 17th, 2026."
  end.
Proof.
  cbn zeta. unfold ScenarioLoader._normalize_scenario_from_file.
  destruct (ScenarioLoader.file_patient_context data) as [pc|];
    cbn [Scenario.context_of Scenario.patient_context]; [|split; reflexivity].
  destruct (normalize_context_identity data pc) as (Hn & Hc & Hd).
  unfold name_reply, dob_reply, Conversation.scenario_name, scenario_dob.
  rewrite Hn, Hc, Hd. split; reflexivity.
Qed.

(** X21.  Whenever the loader rewrites the behaviour text (a
    response-stages or anti-repetition key is present, or a non-empty
    addendum is given), the text it stores has no leading or trailing white
    space; otherwise the behaviour key is left exactly as the file has it. *)
Theorem file_scenario_behavior_stripped (data : ScenarioLoader.FileData)
    (pc : ScenarioLoader.RichContext) :
  let rewritten :=
    match ScenarioLoader.response_stages pc, ScenarioLoader.anti_repetition pc with
    | None, None => false
    | _, _ => true
    end
    || match ScenarioLoader.system_prompt_addendum data with
       | Some addendum => truthy addendum
       | None => false
       end in
  if rewritten
  then exists b,
         Scenario.behavior (ScenarioLoader.normalize_context data pc) = Some b
         /\ strip b = b
  else Scenario.behavior (ScenarioLoader.normalize_context data pc)
       = Scenario.behavior (ScenarioLoader.plain pc).
Proof.
  cbn zeta. unfold ScenarioLoader.normalize_context.
  destruct (ScenarioLoader.response_stages pc), (ScenarioLoader.anti_repetition pc),
    (ScenarioLoader.system_prompt_addendum data) as [addendum|];
    try destruct (truthy addendum); cbn [orb];
    repeat match goal with
      | |- context [match ?x with Some _ => _ | None => _ end] => destruct x
      end;
    cbn [ScenarioLoader.set_goal ScenarioLoader.set_behavior Scenario.behavior];
    try reflexivity;
    (eexists; split; [reflexivity | apply strip_idempotent]).
Qed.

(** X22.  A session gets no conversation manager exactly when its
    scenario is found neither as a file nor, by name, in the legacy list; a
    scenario taken from the legacy list carries the requested name, and a
    file takes precedence over the list. *)
Theorem missing_scenario_degrades (file : option ScenarioLoader.FileData)
    (legacy : option (list Scenario.t)) (sid name : string) :
  let found := ScenarioLoader.get_scenario_by_name file legacy name in
  (conversation_manager (PhoneSystem.init (ScenarioLoader.loaded found) sid name) = None
   <-> file = None
       /\ forall l sc, legacy = Some l -> In sc l -> Scenario.scenario_name sc <> name)
  /\ (forall sc, file = None -> found = Returned sc -> Scenario.scenario_name sc = name)
  /\ (forall data, file = Some data ->
        found = Returned (ScenarioLoader._normalize_scenario_from_file data name)).
Proof.
  cbn zeta. unfold ScenarioLoader.get_scenario_by_name, ScenarioLoader.load_scenario.
  destruct file as [data|].
  - cbn. split; [split; [discriminate | intros [E _]; discriminate E]|].
    split; [intros sc E; discriminate E | intros d E; injection E as <-; reflexivity].
  - destruct legacy as [l|].
    + destruct (find (fun s => (Scenario.scenario_name s =? name)%string) l) as [sc|] eqn:F.
      * apply find_some in F. destruct F as [Hin Hname]. apply String.eqb_eq in Hname.
        cbn. split; [split; [discriminate|]|].
        -- intros [_ H]. exfalso. exact (H l sc eq_refl Hin Hname).
        -- split; [intros sc' _ E; injection E as <-; exact Hname | intros d E; discriminate E].
      * cbn. split; [split; [|reflexivity]|].
        -- intros _. split; [reflexivity|]. intros l' sc E Hin. injection E as <-.
           pose proof (find_none _ _ F sc Hin) as Hn. cbn in Hn.
           apply String.eqb_neq in Hn. exact Hn.
        -- split; [intros sc _ E; discriminate E | intros d E; discriminate E].
    + cbn. split; [split; [|reflexivity]|].
      * intros _. split; [reflexivity|]. intros l sc E. discriminate E.
      * split; [intros sc _ E; discriminate E | intros d E; discriminate E].
Qed.

End Loader.

(** ** Bounded dialogues and saved transcripts *)

Section Bounds.

Lemma patient_turns_app (a b : list Turn) :
  Shape.patient_turns (a ++ b) = (Shape.patient_turns a + Shape.patient_turns b)%nat.
Proof.
  unfold Shape.patient_turns. rewrite filter_app, length_app. reflexivity.
Qed.

Lemma delivery_keeps_bound (complete : Completion) (s : CallSession) (agent_speech : string)
    (parsed : option Q) :
  2 * Z.of_nat (Shape.patient_turns (transcript s)) <= PhoneSystem.turn_count s ->
  (Shape.patient_turns (transcript s) <= 12)%nat ->
  let s' := session (handle_agent_response complete s agent_speech parsed) in
  2 * Z.of_nat (Shape.patient_turns (transcript s')) <= PhoneSystem.turn_count s'
  /\ (Shape.patient_turns (transcript s') <= 12)%nat.
Proof.
  intros Hhalf Hcap. cbn zeta.
  destruct (handle_appends complete s agent_speech parsed) as (tail & Htr & Htc & Htail).
  cbn zeta in *.
  pose proof (handle_response complete s agent_speech parsed) as Hresp. cbn zeta in Hresp.
  rewrite Htr, Htc, patient_turns_app.
  destruct Htail as [[-> Hend] | (reply & -> & Hsay)].
  - match goal with
    | |- context [Shape.patient_turns (?t :: ?l)] =>
        change (Shape.patient_turns (t :: l)) with 0%nat
    end.
    cbn [List.length]. split; lia.
  - match goal with
    | |- context [Shape.patient_turns (?t :: ?l)] =>
        change (Shape.patient_turns (t :: l)) with 1%nat
    end.
    cbn [List.length].
    assert (Hlt : PhoneSystem.turn_count s + 1 < 25).
    { destruct ((MIN_TURNS_BEFORE_CLOSE <=? PhoneSystem.turn_count s + 1)
                && is_closing_utterance agent_speech).
      - destruct Hresp as (E & _). rewrite E in Hsay. discriminate Hsay.
      - destruct (25 <=? PhoneSystem.turn_count s + 1) eqn:H25.
        + destruct Hresp as (E & _). rewrite E in Hsay. discriminate Hsay.
        + apply Z.leb_gt in H25. exact H25. }
    split; lia.
Qed.

(** X23.  In every session reached from a new one the patient has spoken
    at most twelve times, whatever the agent said and whatever the completion
    service answered: each patient turn costs two counted turns and none is
    produced once twenty-five are reached. *)
Theorem at_most_twelve_patient_turns (loaded : option Scenario.t) (sid scenario : string)
    (inputs : list Inbound) :
  let s := run (PhoneSystem.init loaded sid scenario) inputs in
  (Shape.patient_turns (transcript s) <= 12)%nat
  /\ 2 * Z.of_nat (Shape.patient_turns (transcript s)) <= PhoneSystem.turn_count s.
Proof.
  cbn zeta.
  assert (Hstep : forall inputs s,
             2 * Z.of_nat (Shape.patient_turns (transcript s)) <= PhoneSystem.turn_count s
             /\ (Shape.patient_turns (transcript s) <= 12)%nat ->
             2 * Z.of_nat (Shape.patient_turns (transcript (run s inputs)))
             <= PhoneSystem.turn_count (run s inputs)
             /\ (Shape.patient_turns (transcript (run s inputs)) <= 12)%nat).
  { clear inputs. induction inputs as [|i rest IH]; intros s Hs; cbn [run]; [exact Hs|].
    apply IH. destruct Hs as [H1 H2]. apply delivery_keeps_bound; assumption. }
  destruct (Hstep inputs (PhoneSystem.init loaded sid scenario)) as [H1 H2].
  { cbn. split; lia. }
  split; assumption.
Qed.

(** X24.  Every delivery saves the transcript right after recording the
    agent's turn, marked completed exactly when the goal flag was already set
    or twenty-five turns are now counted; so whenever the handler hangs up,
    that save is already marked completed.  When the patient answers, the
    last event of the delivery is a second save, taken after the patient's
    turn was recorded. *)
Theorem saves_around_delivery (complete : Completion) (s : CallSession)
    (agent_speech : string) (parsed : option Q) :
  let n := PhoneSystem.turn_count s + 1 in
  let h := handle_agent_response complete s agent_speech parsed in
  exists rest,
    trace h
    = TranscriptSaved (if (n <? 25) && negb (goal_achieved s)
                       then "in_progress" else "completed") n :: rest
    /\ (In Hangup (response h) -> (n <? 25) && negb (goal_achieved s) = false)
    /\ (phase_after h = ACTIVE ->
        exists middle,
          rest = (middle
                    ++ [TranscriptSaved
                          (if (n + 1 <? 25) && negb (goal_achieved (session h))
                           then "in_progress" else "completed") (n + 1)])%list)
    /\ (phase_after h = ENDING -> forall st k, In (TranscriptSaved st k) rest -> False).
Proof.
  cbn zeta.
  pose proof (handle_response complete s agent_speech parsed) as Hresp. cbn zeta in Hresp.
  unfold handle_agent_response in *.
  set (conf := match parsed with Some c => c | None => 0%Q end) in *.
  set (s1 := add_turn s (mkTurn agent agent_speech (PhoneSystem.turn_count s) (Some conf))) in *.
  change (PhoneSystem.turn_count s + 1) with (PhoneSystem.turn_count s1) in *.
  destruct (MIN_TURNS_BEFORE_CLOSE <=? PhoneSystem.turn_count s1) eqn:Hmin;
    cbn [andb] in Hresp.
  - destruct (is_closing_utterance agent_speech) eqn:Hclose.
    + eexists. split; [reflexivity|]. split; [intros []|].
      split; [intros E; discriminate E|].
      intros _ st k [E|[]]. discriminate E.
    + destruct (should_end_call s1 agent_speech) as [ending s2] eqn:Hs.
      destruct ending.
      * eexists. split; [reflexivity|]. split.
        -- intros _. destruct (25 <=? PhoneSystem.turn_count s1) eqn:H25.
           ++ apply Z.leb_le in H25.
              assert (Hn : (PhoneSystem.turn_count s1 <? 25) = false) by (apply Z.ltb_ge; lia).
              rewrite Hn. reflexivity.
           ++ destruct Hresp as ((reply & _ & E) & _). discriminate E.
        -- split; [intros E; discriminate E|].
           intros _ st k [E|[]]. discriminate E.
      * pose proof (generate_gpt_reply_truthy complete s2 agent_speech conf) as Htruthy.
        pose proof (generate_gpt_reply_frame complete s2 agent_speech conf) as Hf.
        pose proof (should_end_call_frame s1 agent_speech) as Hframe. cbn zeta in Hframe.
        rewrite Hs in Hframe. cbn [snd] in Hframe. destruct Hframe as (Htc2 & _).
        destruct (generate_gpt_reply complete s2 agent_speech conf) as [[reply s3] generated].
        cbn [fst snd] in *. destruct Hf as (Htc3 & Hg3 & _).
        rewrite Htruthy in *. eexists. split; [reflexivity|].
        split; [intros [E|[E|[E|[]]]]; discriminate E|].
        split; [|intros E; discriminate E].
        intros _. exists ([ClosingCheck agent_speech] ++ generated)%list.
        rewrite <- app_assoc. cbn [session]. unfold save_transcript.
        cbn [add_turn PhoneSystem.turn_count goal_achieved].
        rewrite Htc3, Htc2. reflexivity.
  - destruct (should_end_call s1 agent_speech) as [ending s2] eqn:Hs.
    assert (Hfalse : ending = false).
    { unfold should_end_call in Hs.
      assert (Hlt : (PhoneSystem.turn_count s1 <? MIN_TURNS_BEFORE_CLOSE) = true)
        by (apply Z.ltb_lt; apply Z.leb_gt; exact Hmin).
      rewrite Hlt in Hs. injection Hs as <- _. reflexivity. }
    subst ending.
    pose proof (generate_gpt_reply_truthy complete s2 agent_speech conf) as Htruthy.
    pose proof (generate_gpt_reply_frame complete s2 agent_speech conf) as Hf.
    pose proof (should_end_call_frame s1 agent_speech) as Hframe. cbn zeta in Hframe.
    rewrite Hs in Hframe. cbn [snd] in Hframe. destruct Hframe as (Htc2 & _).
    destruct (generate_gpt_reply complete s2 agent_speech conf) as [[reply s3] generated].
    cbn [fst snd] in *. destruct Hf as (Htc3 & Hg3 & _).
    rewrite Htruthy in *. eexists. split; [reflexivity|].
    split; [intros [E|[E|[E|[]]]]; discriminate E|].
    split; [|intros E; discriminate E].
    intros _. exists generated.
    cbn [session app]. unfold save_transcript.
    cbn [add_turn PhoneSystem.turn_count goal_achieved].
    rewrite Htc3, Htc2. reflexivity.
Qed.

End Bounds.

(** ** The properties above at concrete inputs *)

Section Instances.

Lemma no_manager_no_completion_witness :
  conversation_manager
    (session (handle_agent_response (answering "Never asked.") Fixtures.degraded
                "What is your date of birth?" (Some 1%Q))) = None
  /\ response (handle_agent_response (answering "Never asked.") Fixtures.degraded
                 "What is your date of birth?" (Some 1%Q))
     = [Pause (3 # 2); Say "February 17th, 2026"; Gather 10 3].
Proof.
  destruct (no_manager_no_completion (answering "Never asked.") Fixtures.degraded
              "What is your date of birth?" (Some 1%Q) eq_refl) as (Hnone & _ & Hsay).
  split; [exact Hnone|].
  assert (Hphase : phase_after (handle_agent_response (answering "Never asked.")
                                  Fixtures.degraded "What is your date of birth?" (Some 1%Q))
                   = ACTIVE) by (vm_compute; reflexivity).
  rewrite (Hsay Hphase). vm_compute. reflexivity.
Defined.

Lemma missing_goal_falls_back_to_rules_witness :
  generate_gpt_reply (answering "Never asked.") Fixtures.bare_session
    "Can I have your phone number?" 1%Q
  = ("Yes, that's correct.", Fixtures.bare_session, []).
Proof.
  destruct (missing_goal_falls_back_to_rules (answering "Never asked.")
              (Conversation.init Fixtures.bare) Fixtures.bare_session
              "Can I have your phone number?" 1%Q eq_refl eq_refl) as (_ & _ & _ & Hreply).
  rewrite Hreply. vm_compute. reflexivity.
Defined.

Lemma requests_carry_whole_exchanges_witness :
  exists context cm,
    Scenario.patient_context scheduling = Some context
    /\ conversation_manager
         (run (PhoneSystem.init (Some scheduling) "CA0001" "appointment_scheduling")
            [small_talk]) = Some cm
    /\ Shape.exchanges (conversation_history cm) = true
    /\ Shape.from_service context [small_talk] [] (conversation_history cm)
    /\ Fixtures.second_request
       = (SystemPrompt context :: map Chat (conversation_history cm)
            ++ [Chat (mkEntry user (user_content "And which day would you like?" (1 # 2)))])%list.
Proof.
  assert (Hin : In (CompletionRequest Fixtures.second_request)
                   (trace (handle_agent_response (answering "Monday would be great.")
                             (run (PhoneSystem.init (Some scheduling) "CA0001"
                                     "appointment_scheduling") [small_talk])
                             "And which day would you like?" (Some (1 # 2))))).
  { vm_compute. right. right. left. reflexivity. }
  destruct (requests_carry_whole_exchanges (answering "Monday would be great.") scheduling
              "CA0001" "appointment_scheduling" [small_talk] "And which day would you like?"
              (Some (1 # 2)) Fixtures.second_request) as [Hsent _].
  exact (Hsent Hin).
Defined.

Lemma registered_sessions_shape_witness :
  match Registry.get (Webhooks.deliver_all Fixtures.one_scenario Registry.empty Fixtures.traffic)
          "CA0001" with
  | Some s =>
      call_sid s = "CA0001"
      /\ PhoneSystem.turn_count s = Z.of_nat (List.length (transcript s))
      /\ Shape.numbered_from 0 (transcript s)
      /\ Shape.patient_answers false (transcript s) = true
  | None => False
  end.
Proof.
  destruct (Registry.get (Webhooks.deliver_all Fixtures.one_scenario Registry.empty
                            Fixtures.traffic) "CA0001") as [s|] eqn:G.
  - exact (registered_sessions_shape Fixtures.one_scenario Fixtures.traffic "CA0001" s G).
  - vm_compute in G. discriminate G.
Defined.

End Instances.
